(** * Blogicum: visibility, authorization, pagination and form contracts

    A shallow embedding of [blog/views.py] and [blog/forms.py].  The record
    store is a value of type [DB] (one list of rows per table, in storage
    order), querysets are lists of rows, a view is a function from the store
    and the request to a response (and, for mutating views, to the new store).
    The framework pieces the views call (querysets, [get_object_or_404],
    [Paginator], the access mixins, form fields) are written out next to the
    code that uses them. *)

From Stdlib Require Import ZArith List Bool Ascii String Lia Permutation Sorted.
Import ListNotations.
Open Scope string_scope.
Open Scope Z_scope.

Set Implicit Arguments.

(** ** Python values used by the views *)

Module Py.

(** ASCII part of [str.isspace]: tab, LF, VT, FF, CR, FS, GS, RS, US, space. *)
Definition isspace (c : ascii) : bool :=
  let n := nat_of_ascii c in
  ((9 <=? n) && (n <=? 13) || (28 <=? n) && (n <=? 32))%nat.

Fixpoint lstrip_chars (l : list ascii) : list ascii :=
  match l with
  | c :: l' => if isspace c then lstrip_chars l' else l
  | [] => []
  end.

Definition strip_chars (l : list ascii) : list ascii :=
  rev (lstrip_chars (rev (lstrip_chars l))).

(** [s.strip()] *)
Definition strip (s : string) : string :=
  string_of_list_ascii (strip_chars (list_ascii_of_string s)).

Definition isdigit (c : ascii) : bool :=
  let n := nat_of_ascii c in ((48 <=? n) && (n <=? 57))%nat.

Definition digit_value (c : ascii) : Z := Z.of_nat (nat_of_ascii c) - 48.

(** Decimal digits with single underscores between digits, as [int]
    accepts them. *)
Fixpoint digits_value (acc : Z) (after_digit : bool) (l : list ascii)
  : option Z :=
  match l with
  | [] => if after_digit then Some acc else None
  | c :: l' =>
      if isdigit c then digits_value (10 * acc + digit_value c) true l'
      else if Ascii.eqb c "_"%char && after_digit
           then digits_value acc false l'
           else None
  end.

(** [int(s)] for a [str]: [None] stands for [ValueError]. *)
Definition int_of_str (s : string) : option Z :=
  match strip_chars (list_ascii_of_string s) with
  | "+"%char :: l => digits_value 0 false l
  | "-"%char :: l => option_map Z.opp (digits_value 0 false l)
  | l => digits_value 0 false l
  end.

(** The values [request.GET.get('page')] and [Paginator.page] pass to
    [validate_number]. *)
Inductive value : Type :=
| None_
| Str (s : string)
| Int (z : Z).

(** [int(v)]: [None] stands for [TypeError] or [ValueError]. *)
Definition int (v : value) : option Z :=
  match v with
  | None_ => None
  | Str s => int_of_str s
  | Int z => Some z
  end.

End Py.

(** [QueryDict.get(key)]: the last value submitted under [key]. *)
Definition QueryDict := list (string * string).

Definition QueryDict_get (q : QueryDict) (key : string) : option string :=
  fold_left (fun acc kv => if String.eqb (fst kv) key then Some (snd kv) else acc)
            q None.

(** ** Timestamps *)

Record datetime : Type := mk_datetime {
  year : Z; month : Z; day : Z;
  hour : Z; minute : Z; second : Z; microsecond : Z
}.

Definition datetime_fields (d : datetime) : list Z :=
  [year d; month d; day d; hour d; minute d; second d; microsecond d].

Fixpoint lex_compare (a b : list Z) : comparison :=
  match a, b with
  | [], [] => Eq
  | [], _ :: _ => Lt
  | _ :: _, [] => Gt
  | x :: a', y :: b' =>
      match x ?= y with
      | Eq => lex_compare a' b'
      | c => c
      end
  end.

(** Comparison of two aware timestamps of the same zone. *)
Definition datetime_compare (a b : datetime) : comparison :=
  lex_compare (datetime_fields a) (datetime_fields b).

(** [a <= b] *)
Definition datetime_leb (a b : datetime) : bool :=
  match datetime_compare a b with
  | Gt => false
  | _ => true
  end.

(** ** The record store *)

(** Modelled from the spec: the entities of [blog/models.py], which is not
    part of the sources; fields as section 3 of the specification lists them
    and as the views and forms name them.  A foreign key is stored as the
    primary key of the row it refers to. *)
Module User.
Record t : Type := mk {
  pk : Z;
  username : string;
  email : string;
  first_name : string;
  last_name : string;
  password : string
}.
End User.

Module Category.
Record t : Type := mk {
  pk : Z;
  title : string;
  slug : string;
  is_published : bool
}.
End Category.

Module Location.
Record t : Type := mk {
  pk : Z;
  name : string;
  is_published : bool
}.
End Location.

Module Post.
Record t : Type := mk {
  pk : Z;
  title : string;
  text : string;
  pub_date : datetime;
  is_published : bool;
  author_id : Z;
  category_id : option Z;
  location_id : option Z;
  image : option string
}.
End Post.

Module Comment.
Record t : Type := mk {
  pk : Z;
  text : string;
  post_id : Z;
  author_id : Z
}.
End Comment.

Record DB : Type := mk_DB {
  users : list User.t;
  categories : list Category.t;
  locations : list Location.t;
  posts : list Post.t;
  comments : list Comment.t
}.

(** ** Querysets *)

Inductive Exception : Type :=
| MultipleObjectsReturned
| ValueError
| PageNotAnInteger
| EmptyPage.

(** A computation that returns or raises. *)
Inductive Exc (A : Type) : Type :=
| Return (a : A)
| Raise (e : Exception).
Arguments Raise {A}.

(** [QuerySet.get()] on an already filtered queryset. *)
Inductive GetResult (A : Type) : Type :=
| Got (a : A)
| DoesNotExist
| Multiple.
Arguments DoesNotExist {A}.
Arguments Multiple {A}.

Definition get {A : Type} (qs : list A) : GetResult A :=
  match qs with
  | [] => DoesNotExist
  | [a] => Got a
  | _ :: _ :: _ => Multiple
  end.

Section OrderBy.
Context {A : Type}.
(** [precedes a b]: row [a] may come before row [b]. *)
Variable precedes : A -> A -> bool.

Fixpoint insert_row (x : A) (l : list A) : list A :=
  match l with
  | [] => [x]
  | y :: l' => if precedes x y then x :: l else y :: insert_row x l'
  end.

(** [order_by]: rows with equal keys keep their storage order. *)
Definition order_by (l : list A) : list A := fold_right insert_row [] l.
End OrderBy.

(** The row a nullable foreign key joins to. *)
Definition category_of (db : DB) (p : Post.t) : option Category.t :=
  match Post.category_id p with
  | None => None
  | Some cid => find (fun c => Category.pk c =? cid) (categories db)
  end.

(** [category__is_published=True]: the join drops a post without category. *)
Definition category__is_published (db : DB) (p : Post.t) : bool :=
  match category_of db p with
  | Some c => Category.is_published c
  | None => false
  end.

(** [pub_date__lte=timezone.now()] *)
Definition pub_date__lte (now : datetime) (p : Post.t) : bool :=
  datetime_leb (Post.pub_date p) now.

(** [order_by('-pub_date')] *)
Definition newest_first (a b : Post.t) : bool :=
  datetime_leb (Post.pub_date b) (Post.pub_date a).

(** [annotate(comment_count=Count('comments'))] *)
Definition comment_count (db : DB) (p : Post.t) : Z :=
  Z.of_nat (List.length
    (filter (fun c => Comment.post_id c =? Post.pk p) (comments db))).

Definition annotate_comment_count (db : DB) (qs : list Post.t)
  : list (Post.t * Z) :=
  map (fun p => (p, comment_count db p)) qs.

(** ** [django.core.paginator] *)

Module Paginator.
Record t (A : Type) : Type := mk {
  object_list : list A;
  per_page : Z;
  orphans : Z;
  allow_empty_first_page : bool
}.

(** [Paginator(object_list, per_page)] *)
Definition new {A : Type} (object_list : list A) (per_page : Z) : t A :=
  mk object_list per_page 0 true.

Definition count {A : Type} (p : t A) : Z :=
  Z.of_nat (List.length (object_list p)).

(** [ceil(hits / per_page)] for a positive page size. *)
Definition ceil_div (hits per_page : Z) : Z := - ((- hits) / per_page).

Definition num_pages {A : Type} (p : t A) : Z :=
  if (count p =? 0) && negb (allow_empty_first_page p) then 0
  else ceil_div (Z.max 1 (count p - orphans p)) (per_page p).

Definition validate_number {A : Type} (p : t A) (number : Py.value) : Exc Z :=
  match Py.int number with
  | None => Raise PageNotAnInteger
  | Some n =>
      if n <? 1 then Raise EmptyPage
      else if n >? num_pages p then
        if (n =? 1) && allow_empty_first_page p then Return n
        else Raise EmptyPage
      else Return n
  end.

(** [object_list[bottom:top]] for non-negative bounds. *)
Definition slice {A : Type} (l : list A) (bottom top : Z) : list A :=
  firstn (Z.to_nat (top - bottom)) (skipn (Z.to_nat bottom) l).
End Paginator.

Module Page.
Record t (A : Type) : Type := mk {
  object_list : list A;
  number : Z;
  paginator : Paginator.t A
}.
End Page.

Definition Paginator_page {A : Type} (p : Paginator.t A) (number : Py.value)
  : Exc (Page.t A) :=
  match Paginator.validate_number p number with
  | Raise e => Raise e
  | Return number =>
      let bottom := (number - 1) * Paginator.per_page p in
      let top := bottom + Paginator.per_page p in
      let top := if top + Paginator.orphans p >=? Paginator.count p
                 then Paginator.count p else top in
      Return (Page.mk (Paginator.slice (Paginator.object_list p) bottom top)
                      number p)
  end.

Definition Paginator_get_page {A : Type} (p : Paginator.t A)
  (number : Py.value) : Exc (Page.t A) :=
  match Paginator.validate_number p number with
  | Return number => Paginator_page p (Py.Int number)
  | Raise PageNotAnInteger => Paginator_page p (Py.Int 1)
  | Raise EmptyPage => Paginator_page p (Py.Int (Paginator.num_pages p))
  | Raise e => Raise e
  end.

(** ** Requests and responses *)

Inductive RequestUser : Type :=
| AnonymousUser
| Authenticated (u : User.t).

Definition is_authenticated (u : RequestUser) : bool :=
  match u with
  | AnonymousUser => false
  | Authenticated _ => true
  end.

(** [request.user == obj] for a stored user [obj], and for the user a
    foreign key [author_id] refers to: model instances are equal when their
    primary keys are; [AnonymousUser] equals no stored user. *)
Definition user_is (ru : RequestUser) (user_pk : Z) : bool :=
  match ru with
  | AnonymousUser => false
  | Authenticated u => User.pk u =? user_pk
  end.

Inductive Method : Type := GET | POST.

Module HttpRequest.
Record t : Type := mk {
  user : RequestUser;
  method : Method;
  GET : QueryDict;
  POST : QueryDict
}.
End HttpRequest.

(** The named routes the views redirect to ([reverse]), and the login page. *)
Inductive Url : Type :=
| login_url
| blog_index
| blog_post_detail (post_id : Z)
| blog_profile (username : string).

Inductive HttpResponse (C : Type) : Type :=
| render (template : string) (context : C)
| redirect (to : Url)
| Http404
| PermissionDenied
| Uncaught (e : Exception).
Arguments redirect {C}.
Arguments Http404 {C}.
Arguments PermissionDenied {C}.
Arguments Uncaught {C}.

(** [request.GET.get('page')] *)
Definition page_number (request : HttpRequest.t) : Py.value :=
  match QueryDict_get (HttpRequest.GET request) "page" with
  | Some s => Py.Str s
  | None => Py.None_
  end.

(** [get_object_or_404], and [SingleObjectMixin.get_object], on a filtered
    queryset: the object, or the response that ends the request. *)
Definition get_object_or_404 {A C : Type} (qs : list A) : HttpResponse C + A :=
  match get qs with
  | Got a => inr a
  | DoesNotExist => inl Http404
  | Multiple => inl (Uncaught MultipleObjectsReturned)
  end.

(** ** [blog/views.py]: the read-only views *)

(** A listed post with its [comment_count]. *)
Definition PostRow : Type := (Post.t * Z)%type.

Definition row_newest_first (a b : PostRow) : bool :=
  newest_first (fst a) (fst b).

Module IndexContext.
Record t : Type := mk { page_obj : Page.t PostRow }.
End IndexContext.

Definition index (db : DB) (now : datetime) (request : HttpRequest.t)
  : HttpResponse IndexContext.t :=
  let post_list :=
    order_by row_newest_first
      (annotate_comment_count db
        (filter (fun p => pub_date__lte now p
                          && Post.is_published p
                          && category__is_published db p)
                (posts db))) in
  let paginator := Paginator.new post_list 10 in
  match Paginator_get_page paginator (page_number request) with
  | Return page_obj => render "blog/index.html" (IndexContext.mk page_obj)
  | Raise e => Uncaught e
  end.

Module CategoryContext.
Record t : Type := mk { category : Category.t; page_obj : Page.t PostRow }.
End CategoryContext.

(** [category=category] *)
Definition in_category (category : Category.t) (p : Post.t) : bool :=
  match Post.category_id p with
  | Some cid => cid =? Category.pk category
  | None => false
  end.

Definition category_posts (db : DB) (now : datetime) (request : HttpRequest.t)
  (category_slug : string) : HttpResponse CategoryContext.t :=
  match get_object_or_404
          (filter (fun c => String.eqb (Category.slug c) category_slug
                            && Category.is_published c)
                  (categories db)) with
  | inl response => response
  | inr category =>
      let post_list :=
        order_by row_newest_first
          (annotate_comment_count db
            (filter (fun p => in_category category p
                              && Post.is_published p
                              && pub_date__lte now p)
                    (posts db))) in
      let paginator := Paginator.new post_list 10 in
      match Paginator_get_page paginator (page_number request) with
      | Return page_obj =>
          render "blog/category.html" (CategoryContext.mk category page_obj)
      | Raise e => Uncaught e
      end
  end.

(** An unbound [CommentForm()]. *)
Inductive CommentForm : Type := CommentForm_unbound.

Module DetailContext.
Record t : Type := mk {
  post : Post.t;
  comments : list Comment.t;
  form : option CommentForm;
  now : datetime
}.
End DetailContext.

(** [timezone.now()] is read once per request: the filter and the context
    see the same instant [now]. *)
Definition post_detail (db : DB) (now : datetime) (request : HttpRequest.t)
  (post_id : Z) : HttpResponse DetailContext.t :=
  let user := HttpRequest.user request in
  let posts :=
    if is_authenticated user then
      filter (fun p => user_is user (Post.author_id p)
                       || Post.is_published p
                          && category__is_published db p
                          && pub_date__lte now p)
             (posts db)
    else
      filter (fun p => Post.is_published p
                       && category__is_published db p
                       && pub_date__lte now p)
             (posts db) in
  match get_object_or_404 (filter (fun p => Post.pk p =? post_id) posts) with
  | inl response => response
  | inr post =>
      let comments :=
        filter (fun c => Comment.post_id c =? Post.pk post) (comments db) in
      let form :=
        if is_authenticated user then Some CommentForm_unbound else None in
      render "blog/detail.html" (DetailContext.mk post comments form now)
  end.

Module ProfileContext.
Record t : Type := mk { profile : User.t; page_obj : Page.t PostRow }.
End ProfileContext.

(** [ProfileView] answering a GET: [get_object] by [username], then
    [get_context_data].  [user.blog] is the reverse side of [Post.author]. *)
Definition ProfileView (db : DB) (now : datetime) (request : HttpRequest.t)
  (username : string) : HttpResponse ProfileContext.t :=
  match get_object_or_404
          (filter (fun u => String.eqb (User.username u) username)
                  (users db)) with
  | inl response => response
  | inr user =>
      let posts :=
        order_by row_newest_first
          (annotate_comment_count db
            (filter (fun p => Post.author_id p =? User.pk user) (posts db))) in
      let posts :=
        if negb (user_is (HttpRequest.user request) (User.pk user)) then
          filter (fun r => Post.is_published (fst r)
                           && category__is_published db (fst r)
                           && pub_date__lte now (fst r))
                 posts
        else posts in
      let paginator := Paginator.new posts 10 in
      match Paginator_get_page paginator (page_number request) with
      | Return page_obj =>
          render "blog/profile.html" (ProfileContext.mk user page_obj)
      | Raise e => Uncaught e
      end
  end.

(** ** [blog/forms.py] *)

(** Error codes of a [ValidationError]. *)
Inductive FieldError : Type :=
| required
| invalid
| max_length
| null_characters_not_allowed
| invalid_choice
| email_in_use                (* "Этот email уже используется." *)
| inherited (code : string).  (* raised by the parent form class *)

Definition FormErrors : Type := list (string * FieldError).

Definition has_null (s : string) : bool :=
  existsb (fun c => Ascii.eqb c zero) (list_ascii_of_string s).

(** [forms.CharField(required=..., max_length=...).clean(raw)]: the value is
    stripped, an empty value is checked against [required], any other value
    is run through the length and null-character validators. *)
Definition CharField_clean (is_required : bool) (limit : option Z)
  (raw : option string) : list FieldError + string :=
  let value := Py.strip (match raw with Some s => s | None => "" end) in
  if String.eqb value "" then
    if is_required then inl [required] else inr ""
  else
    let too_long :=
      match limit with
      | Some n => Z.of_nat (String.length value) >? n
      | None => false
      end in
    match ((if too_long then [max_length] else [])
           ++ (if has_null value then [null_characters_not_allowed] else []))%list
    with
    | [] => inr value
    | errors => inl errors
    end.

(** [CommentForm(data).is_valid()], with the cleaned [text]: the only field
    is the non-blank text. *)
Definition CommentForm_clean (data : QueryDict) : list FieldError + string :=
  CharField_clean true None (QueryDict_get data "text").

(** [ModelChoiceField.clean(raw)] over its [queryset]: an empty value is
    checked against [required]; any other value must be the primary key of a
    row of the queryset. *)
Definition ModelChoiceField_clean {A : Type} (pk : A -> Z) (queryset : list A)
  (is_required : bool) (raw : option string) : list FieldError + option A :=
  match raw with
  | None | Some "" =>
      if is_required then inl [required] else inr None
  | Some value =>
      match Py.int_of_str value with
      | None => inl [invalid_choice]
      | Some key =>
          match get (filter (fun a => pk a =? key) queryset) with
          | Got a => inr (Some a)
          | _ => inl [invalid_choice]
          end
      end
  end.

(** *** [strftime] *)

Definition digit_char (n : Z) : ascii := ascii_of_nat (48 + Z.to_nat n).

(** [n] written with [width] decimal digits. *)
Fixpoint zfill (width : nat) (n : Z) : list ascii :=
  match width with
  | O => []
  | S w => (zfill w (n / 10) ++ [digit_char (n mod 10)])%list
  end.

(** The directives [PostForm] uses.  The year is written with four digits. *)
Definition strftime_directive (d : datetime) (c : ascii) : list ascii :=
  if Ascii.eqb c "Y" then zfill 4 (year d)
  else if Ascii.eqb c "m" then zfill 2 (month d)
  else if Ascii.eqb c "d" then zfill 2 (day d)
  else if Ascii.eqb c "H" then zfill 2 (hour d)
  else if Ascii.eqb c "M" then zfill 2 (minute d)
  else if Ascii.eqb c "S" then zfill 2 (second d)
  else ["%"%char; c].

Fixpoint strftime_chars (d : datetime) (after_percent : bool)
  (fmt : list ascii) : list ascii :=
  match fmt with
  | [] => if after_percent then ["%"%char] else []
  | c :: fmt' =>
      if after_percent
      then (strftime_directive d c ++ strftime_chars d false fmt')%list
      else if Ascii.eqb c "%" then strftime_chars d true fmt'
      else c :: strftime_chars d false fmt'
  end.

Definition strftime (d : datetime) (fmt : string) : string :=
  string_of_list_ascii (strftime_chars d false (list_ascii_of_string fmt)).

(** *** [PostForm] *)

(** [order_by('title')] and [order_by('name')]: strings compare character by
    character, as under the store's binary collation. *)
Definition by_title (a b : Category.t) : bool :=
  String.leb (Category.title a) (Category.title b).

Definition by_name (a b : Location.t) : bool :=
  String.leb (Location.name a) (Location.name b).

Module PostForm.
Record t : Type := mk {
  instance : option Post.t;          (* [None]: a new, unsaved [Post()] *)
  category_queryset : list Category.t;
  location_queryset : list Location.t;
  initial_pub_date : option string;
  data : option QueryDict            (* [None]: unbound *)
}.
End PostForm.

(** [PostForm.__init__].  [instance.pk] is falsy when it is [None] or [0];
    a stored [pub_date] is always truthy. *)
Definition PostForm_init (db : DB) (now : datetime) (data : option QueryDict)
  (instance : option Post.t) : PostForm.t :=
  let category_queryset :=
    order_by by_title (filter Category.is_published (categories db)) in
  let location_queryset :=
    order_by by_name (filter Location.is_published (locations db)) in
  let unsaved :=
    match instance with
    | None => true
    | Some p => Post.pk p =? 0
    end in
  let initial_pub_date :=
    if unsaved then Some (strftime now "%Y-%m-%dT%H:%M")
    else
      match instance with
      | Some p => Some (strftime (Post.pub_date p) "%Y-%m-%dT%H:%M")
      | None => None
      end in
  PostForm.mk instance category_queryset location_queryset
              initial_pub_date data.

(** The title, text, publication date and image of a submitted post. *)
Module PostContent.
Record t : Type := mk {
  title : string;
  text : string;
  pub_date : datetime;
  image : option string
}.
End PostContent.

(** Rows are written back under their primary key. *)
Definition save_post (db : DB) (p : Post.t) : DB :=
  mk_DB (users db) (categories db) (locations db)
        (map (fun q => if Post.pk q =? Post.pk p then p else q) (posts db))
        (comments db).

Definition save_comment (db : DB) (c : Comment.t) : DB :=
  mk_DB (users db) (categories db) (locations db) (posts db)
        (map (fun q => if Comment.pk q =? Comment.pk c then c else q)
             (comments db)).

(** The next value of the auto-incremented key. *)
Definition next_pk (pks : list Z) : Z := fold_right Z.max 0 pks + 1.

(** [comment.save()] of a new comment. *)
Definition insert_comment (db : DB) (text : string) (post_id author_id : Z)
  : DB :=
  mk_DB (users db) (categories db) (locations db) (posts db)
        (comments db
         ++ [Comment.mk (next_pk (map Comment.pk (comments db)))
                        text post_id author_id])%list.

Definition delete_comment (db : DB) (c : Comment.t) : DB :=
  mk_DB (users db) (categories db) (locations db) (posts db)
        (filter (fun q => negb (Comment.pk q =? Comment.pk c)) (comments db)).

(** Modelled from the spec: the deletion policy of [Comment.post], declared
    in [blog/models.py]; the comments of a post are removed with it. *)
Definition delete_post (db : DB) (p : Post.t) : DB :=
  mk_DB (users db) (categories db) (locations db)
        (filter (fun q => negb (Post.pk q =? Post.pk p)) (posts db))
        (filter (fun c => negb (Comment.post_id c =? Post.pk p)) (comments db)).

(** ** [blog/views.py]: the views that change the store *)

Definition View (C : Type) : Type :=
  DB -> HttpRequest.t -> DB * HttpResponse C.

(** [AccessMixin.handle_no_permission], with [raise_exception] unset. *)
Definition handle_no_permission {C : Type} (request : HttpRequest.t)
  : HttpResponse C :=
  if is_authenticated (HttpRequest.user request) then PermissionDenied
  else redirect login_url.

(** [LoginRequiredMixin.dispatch] in front of the rest of the class. *)
Definition LoginRequiredMixin {C : Type} (super : View C) : View C :=
  fun db request =>
    if negb (is_authenticated (HttpRequest.user request))
    then (db, handle_no_permission request)
    else super db request.

(** [UserPassesTestMixin.dispatch]; the test may itself end the request. *)
Definition UserPassesTestMixin {C : Type}
  (test_func : DB -> HttpRequest.t -> HttpResponse C + bool)
  (super : View C) : View C :=
  fun db request =>
    match test_func db request with
    | inl response => (db, response)
    | inr false => (db, handle_no_permission request)
    | inr true => super db request
    end.

(** [AuthorRequiredMixin.test_func]: [get_object] may end the request
    with not-found. *)
Definition test_func {A C : Type} (get_object : DB -> HttpResponse C + A)
  (author_id : A -> Z) (db : DB) (request : HttpRequest.t)
  : HttpResponse C + bool :=
  match get_object db with
  | inl response => inl response
  | inr obj => inr (user_is (HttpRequest.user request) (author_id obj))
  end.

Definition AuthorRequiredMixin {A C : Type}
  (get_object : DB -> HttpResponse C + A) (author_id : A -> Z)
  (super : View C) : View C :=
  UserPassesTestMixin (test_func get_object author_id) super.

(** The decorator [login_required]. *)
Definition login_required {C : Type} (view : View C) : View C :=
  fun db request =>
    if is_authenticated (HttpRequest.user request) then view db request
    else (db, redirect login_url).

(** [add_comment] never renders a page. *)
Definition add_comment (post_id : Z) : View Empty_set :=
  login_required (fun db request =>
    match get_object_or_404
            (filter (fun p => Post.pk p =? post_id) (posts db)) with
    | inl response => (db, response)
    | inr post =>
        match HttpRequest.method request, HttpRequest.user request with
        | POST, Authenticated user =>
            match CommentForm_clean (HttpRequest.POST request) with
            | inr text =>
                (insert_comment db text (Post.pk post) (User.pk user),
                 redirect (blog_post_detail post_id))
            | inl _ => (db, redirect (blog_post_detail post_id))
            end
        | _, _ => (db, redirect (blog_post_detail post_id))
        end
    end).

(** [pk_url_kwarg = 'post_id'] *)
Definition get_post {C : Type} (post_id : Z) (db : DB)
  : HttpResponse C + Post.t :=
  get_object_or_404 (filter (fun p => Post.pk p =? post_id) (posts db)).

(** [pk_url_kwarg = 'comment_id'] *)
Definition get_comment {C : Type} (comment_id : Z) (db : DB)
  : HttpResponse C + Comment.t :=
  get_object_or_404 (filter (fun c => Comment.pk c =? comment_id) (comments db)).

Module CommentContext.
Record t : Type := mk {
  comment : Comment.t;
  errors : list FieldError
}.
End CommentContext.

(** [UpdateView] over [CommentMixin]: the form page on GET; on POST the
    text is validated and saved. *)
Definition CommentUpdateView_handle (post_id comment_id : Z)
  : View CommentContext.t :=
  fun db request =>
    match get_comment comment_id db with
    | inl response => (db, response)
    | inr object =>
        match HttpRequest.method request with
        | GET => (db, render "blog/comment.html" (CommentContext.mk object []))
        | POST =>
            match CommentForm_clean (HttpRequest.POST request) with
            | inl errors =>
                (db, render "blog/comment.html" (CommentContext.mk object errors))
            | inr text =>
                (save_comment db
                   (Comment.mk (Comment.pk object) text
                               (Comment.post_id object)
                               (Comment.author_id object)),
                 redirect (blog_post_detail post_id))
            end
        end
    end.

Definition CommentUpdateView (post_id comment_id : Z) : View CommentContext.t :=
  LoginRequiredMixin
    (AuthorRequiredMixin (get_comment comment_id) Comment.author_id
       (CommentUpdateView_handle post_id comment_id)).

(** [DeleteView] over [CommentMixin], as in Django 3.2: the confirmation
    page on GET, the deletion on POST. *)
Definition CommentDeleteView_handle (post_id comment_id : Z)
  : View CommentContext.t :=
  fun db request =>
    match get_comment comment_id db with
    | inl response => (db, response)
    | inr object =>
        match HttpRequest.method request with
        | GET => (db, render "blog/comment.html" (CommentContext.mk object []))
        | POST => (delete_comment db object, redirect (blog_post_detail post_id))
        end
    end.

Definition CommentDeleteView (post_id comment_id : Z) : View CommentContext.t :=
  LoginRequiredMixin
    (AuthorRequiredMixin (get_comment comment_id) Comment.author_id
       (CommentDeleteView_handle post_id comment_id)).

Module PostContext.
Record t : Type := mk {
  object : Post.t;
  form : PostForm.t;
  errors : FormErrors
}.
End PostContext.

Section PostViews.

(** What [blog/models.py] declares, and the sources do not show: whether the
    category and the location of a post may be left empty, and the
    validation of the title, text, publication date and image. *)
Variable category_required location_required : bool.
Variable clean_content : QueryDict -> FormErrors + PostContent.t.

Variable now : datetime.

Definition tag_errors (field : string) (errors : list FieldError)
  : FormErrors :=
  map (fun e => (field, e)) errors.

Definition PostForm_clean_category (form : PostForm.t) (data : QueryDict)
  : list FieldError + option Category.t :=
  ModelChoiceField_clean Category.pk (PostForm.category_queryset form)
                         category_required (QueryDict_get data "category").

Definition PostForm_clean_location (form : PostForm.t) (data : QueryDict)
  : list FieldError + option Location.t :=
  ModelChoiceField_clean Location.pk (PostForm.location_queryset form)
                         location_required (QueryDict_get data "location").

(** [form.is_valid()] and the instance [form.save()] writes, for a form
    bound to the stored post [object]. *)
Definition PostForm_clean (form : PostForm.t) (data : QueryDict)
  (object : Post.t) : FormErrors + Post.t :=
  match clean_content data,
        PostForm_clean_location form data,
        PostForm_clean_category form data with
  | inr content, inr location, inr category =>
      inr (Post.mk (Post.pk object)
                   (PostContent.title content)
                   (PostContent.text content)
                   (PostContent.pub_date content)
                   (Post.is_published object)
                   (Post.author_id object)
                   (option_map Category.pk category)
                   (option_map Location.pk location)
                   (PostContent.image content))
  | content, location, category =>
      inl ((match content with inl errors => errors | inr _ => [] end)
           ++ (match location with
               | inl errors => tag_errors "location" errors
               | inr _ => []
               end)
           ++ (match category with
               | inl errors => tag_errors "category" errors
               | inr _ => []
               end))%list
  end.

(** [UpdateView] over [PostMixin]. *)
Definition PostUpdateView_handle (post_id : Z) : View PostContext.t :=
  fun db request =>
    match get_post post_id db with
    | inl response => (db, response)
    | inr object =>
        match HttpRequest.method request with
        | GET =>
            (db, render "blog/create.html"
                   (PostContext.mk object
                      (PostForm_init db now None (Some object)) []))
        | POST =>
            let data := HttpRequest.POST request in
            let form := PostForm_init db now (Some data) (Some object) in
            match PostForm_clean form data object with
            | inl errors =>
                (db, render "blog/create.html"
                       (PostContext.mk object form errors))
            | inr object =>
                (save_post db object,
                 redirect (blog_post_detail (Post.pk object)))
            end
        end
    end.

Definition PostUpdateView (post_id : Z) : View PostContext.t :=
  LoginRequiredMixin
    (AuthorRequiredMixin (get_post post_id) Post.author_id
       (PostUpdateView_handle post_id)).

(** [DeleteView] over [PostMixin], as in Django 3.2; [get_context_data]
    adds the form. *)
Definition PostDeleteView_handle (post_id : Z) : View PostContext.t :=
  fun db request =>
    match get_post post_id db with
    | inl response => (db, response)
    | inr object =>
        match HttpRequest.method request with
        | GET =>
            (db, render "blog/create.html"
                   (PostContext.mk object
                      (PostForm_init db now None (Some object)) []))
        | POST => (delete_post db object, redirect blog_index)
        end
    end.

Definition PostDeleteView (post_id : Z) : View PostContext.t :=
  LoginRequiredMixin
    (AuthorRequiredMixin (get_post post_id) Post.author_id
       (PostDeleteView_handle post_id)).

End PostViews.

(** *** [CustomUserCreationForm] *)

Module RegistrationData.
Record t : Type := mk {
  username : option string;
  email : option string;
  first_name : option string;
  last_name : option string;
  password1 : option string;
  password2 : option string
}.
End RegistrationData.

Section Registration.

(** What the parent [UserCreationForm] and the framework decide: the errors
    of the username and password fields or, without errors, the cleaned
    username and the stored form of the password; and the address syntax an
    [EmailField] accepts. *)
Variable UserCreationForm_clean :
  list User.t -> RegistrationData.t -> FormErrors + (string * string).
Variable validate_email : string -> bool.

(** [forms.EmailField(required=True).clean(raw)] *)
Definition EmailField_clean (raw : option string) : list FieldError + string :=
  match CharField_clean true None raw with
  | inr value => if validate_email value then inr value else inl [invalid]
  | inl errors => inl errors
  end.

(** [clean_email] *)
Definition clean_email (users : list User.t) (email : string)
  : list FieldError + string :=
  if existsb (fun u => String.eqb (User.email u) email) users
  then inl [email_in_use]
  else inr email.

(** A field's [clean] followed by the form's [clean_<name>] hook, which only
    runs on a value the field accepted. *)
Definition email_cleaned (users : list User.t) (data : RegistrationData.t)
  : list FieldError + string :=
  match EmailField_clean (RegistrationData.email data) with
  | inr email => clean_email users email
  | inl errors => inl errors
  end.

Definition first_name_cleaned (data : RegistrationData.t)
  : list FieldError + string :=
  CharField_clean false (Some 30) (RegistrationData.first_name data).

Definition last_name_cleaned (data : RegistrationData.t)
  : list FieldError + string :=
  CharField_clean false (Some 150) (RegistrationData.last_name data).



(** [save(commit=True)]: the parent's [save(commit=False)] refuses a form
    with errors ([ValueError]) and otherwise builds the user with the
    username and the password; the three fields are then set from
    [cleaned_data] and the user is stored. *)
Definition CustomUserCreationForm_save (db : DB) (data : RegistrationData.t)
  : DB * Exc User.t :=
  match UserCreationForm_clean (users db) data,
        email_cleaned (users db) data,
        first_name_cleaned data,
        last_name_cleaned data with
  | inr (username, password), inr email, inr first_name, inr last_name =>
      let user :=
        User.mk (next_pk (map User.pk (users db)))
                username email first_name last_name password in
      (mk_DB (users db ++ [user])%list (categories db) (locations db)
             (posts db) (comments db),
       Return user)
  | _, _, _, _ => (db, Raise ValueError)
  end.

End Registration.

(** ** [blog/views.py]: creating a post, editing the profile *)

Module PostCreateContext.
Record t : Type := mk {
  form : PostForm.t;
  errors : FormErrors
}.
End PostCreateContext.

(** [Model.save()] of a new post. *)
Definition insert_post (db : DB) (p : Post.t) : DB :=
  mk_DB (users db) (categories db) (locations db)
        (posts db ++ [p])%list (comments db).

Section PostCreate.

(** What [blog/models.py] declares, as for the other post views, and the
    default of [Post.is_published]. *)
Variable category_required location_required : bool.
Variable clean_content : QueryDict -> FormErrors + PostContent.t.
Variable default_is_published : bool.

Variable now : datetime.

(** [PostCreateView].  [LoginRequiredMixin.dispatch] ends an anonymous
    request; past it [request.user] is a stored user, whom [form_valid]
    makes the author.  The new instance carries the model defaults and gets
    the next key when it is saved. *)
Definition PostCreateView : View PostCreateContext.t :=
  fun db request =>
    match HttpRequest.user request with
    | AnonymousUser => (db, handle_no_permission request)
    | Authenticated user =>
        match HttpRequest.method request with
        | GET =>
            (db, render "blog/create.html"
                   (PostCreateContext.mk (PostForm_init db now None None) []))
        | POST =>
            let data := HttpRequest.POST request in
            let form := PostForm_init db now (Some data) None in
            let instance :=
              Post.mk (next_pk (map Post.pk (posts db))) "" "" now
                      default_is_published (User.pk user) None None None in
            match PostForm_clean category_required location_required
                                 clean_content form data instance with
            | inl errors =>
                (db, render "blog/create.html"
                       (PostCreateContext.mk form errors))
            | inr post =>
                (insert_post db post,
                 redirect (blog_profile (User.username user)))
            end
        end
    end.

End PostCreate.

Module UserContext.
Record t : Type := mk {
  object : User.t;
  errors : FormErrors
}.
End UserContext.

Definition save_user (db : DB) (u : User.t) : DB :=
  mk_DB (map (fun q => if User.pk q =? User.pk u then u else q) (users db))
        (categories db) (locations db) (posts db) (comments db).

Section ProfileUpdate.

(** What the framework's [User] model decides for
    [fields = first_name, last_name, username, email]: the errors of a
    submission or the four cleaned values, in that order. *)
Variable clean_profile :
  list User.t -> User.t -> QueryDict
  -> FormErrors + (string * string * string * string).

(** [ProfileUpdateView].  [get_object] returns [request.user], and the form
    saves onto that very object, so [get_success_url] reads the username
    just saved. *)
Definition ProfileUpdateView : View UserContext.t :=
  fun db request =>
    match HttpRequest.user request with
    | AnonymousUser => (db, handle_no_permission request)
    | Authenticated object =>
        match HttpRequest.method request with
        | GET => (db, render "blog/user.html" (UserContext.mk object []))
        | POST =>
            match clean_profile (users db) object (HttpRequest.POST request) with
            | inl errors =>
                (db, render "blog/user.html" (UserContext.mk object errors))
            | inr (first_name, last_name, username, email) =>
                let object :=
                  User.mk (User.pk object) username email first_name last_name
                          (User.password object) in
                (save_user db object,
                 redirect (blog_profile (User.username object)))
            end
        end
    end.

End ProfileUpdate.

(** ** The specification's own definitions

    These follow the words of the specification, not the code; the theorems
    below compare them with the views. *)

(** Section 3, effective visibility: the viewer is the author, or the post
    is published, its category is published and its date has come. *)
Definition visible (db : DB) (now : datetime) (post : Post.t)
  (V : RequestUser) : bool :=
  match V with
  | Authenticated u => User.pk u =? Post.author_id post
  | AnonymousUser => false
  end
  || Post.is_published post
     && match category_of db post with
        | Some c => Category.is_published c
        | None => false
        end
     && datetime_leb (Post.pub_date post) now.

(** Section 4.2, the published-only filter of the listings. *)
Definition published_only (db : DB) (now : datetime) (post : Post.t) : Prop :=
  Post.is_published post = true
  /\ (exists c, category_of db post = Some c /\ Category.is_published c = true)
  /\ datetime_leb (Post.pub_date post) now = true.







(** The page [get_page] settles on: the first page for a value that is not
    an integer, the last page for an integer outside [1 .. num_pages]. *)
Definition selected_page (num_pages : Z) (number : option Z) : Z :=
  match number with
  | None => 1
  | Some n => if (n <? 1) || (n >? num_pages) then num_pages else n
  end.

(** A post is listed by a page object when it is on the page or anywhere
    in the listing the page was cut from. *)
Definition listed (page_obj : Page.t PostRow) (post : Post.t) : Prop :=
  In post (map fst (Page.object_list page_obj))
  \/ In post (map fst (Paginator.object_list (Page.paginator page_obj))).

(** Section 4.3 as the views implement it, for a view [view] guarding the
    handler [handle] of the row of [table] with primary key [id]: an
    anonymous requester is sent to the login page; for an authenticated one
    a missing row is not-found, a row of another author is forbidden, and
    the author's request reaches the handler. *)
Definition author_gate {A C : Type} (table : DB -> list A)
  (pk author_id : A -> Z) (id : Z) (view handle : View C) : Prop :=
  forall db request,
    NoDup (map pk (table db)) ->
    match HttpRequest.user request with
    | AnonymousUser => view db request = (db, redirect login_url)
    | Authenticated u =>
        (~ In id (map pk (table db)) -> view db request = (db, Http404))
        /\ (forall obj, In obj (table db) -> pk obj = id ->
               view db request
               = if User.pk u =? author_id obj then handle db request
                 else (db, PermissionDenied))
    end.


(** ** A sample store *)

Definition sample_now : datetime := mk_datetime 2024 6 1 12 0 0 0.

Definition alice : User.t := User.mk 1 "alice" "alice@example.org" "Alice" "" "pw1".
Definition bob : User.t := User.mk 2 "bob" "bob@example.org" "" "" "pw2".

Definition travel : Category.t := Category.mk 1 "Travel" "travel" true.
Definition hidden : Category.t := Category.mk 2 "Hidden" "hidden" false.

(** Two posts of [alice], two of [bob]. *)
Definition shown_post : Post.t :=
  Post.mk 1 "Shown" "text" (mk_datetime 2024 5 1 8 30 15 7) true 1
          (Some 1) None None.
Definition withdrawn_post : Post.t :=
  Post.mk 2 "Withdrawn" "text" (mk_datetime 2024 5 2 8 0 0 0) false 1
          (Some 1) None None.
Definition hidden_post : Post.t :=
  Post.mk 3 "In a hidden category" "text" (mk_datetime 2024 5 3 8 0 0 0)
          true 2 (Some 2) None None.
Definition deferred_post : Post.t :=
  Post.mk 4 "Deferred" "text" (mk_datetime 2025 1 1 0 0 0 0) true 2
          (Some 1) None None.

Definition sample_posts : list Post.t :=
  [shown_post; withdrawn_post; hidden_post; deferred_post].

Definition first_comment : Comment.t := Comment.mk 1 "first" 1 2.

Definition sample_db : DB :=
  mk_DB [alice; bob] [travel; hidden]
        [Location.mk 1 "Here" true; Location.mk 2 "Nowhere" false]
        sample_posts
        [first_comment].

Definition request_of (user : RequestUser) (method : Method)
  (GET POST : QueryDict) : HttpRequest.t :=
  HttpRequest.mk user method GET POST.

(** A stand-in for the field validation of [blog/models.py]: it requires a
    title. *)
Definition sample_clean_content (data : QueryDict)
  : FormErrors + PostContent.t :=
  match QueryDict_get data "title" with
  | Some title => inr (PostContent.mk title "text" sample_now None)
  | None => inl [("title", required)]
  end.

(** Two submissions of the editor for [hidden_post]: one that sends back
    the key of its category, one that leaves the category empty. *)
Definition keep_category : QueryDict :=
  [("title", "New title"); ("category", "2")].
Definition no_category : QueryDict := [("title", "New title")].

(** Stand-ins for the parent registration form, which here only requires
    a username and a password, and for the address syntax check. *)
Definition sample_UserCreationForm_clean (users : list User.t)
  (data : RegistrationData.t) : FormErrors + (string * string) :=
  match RegistrationData.username data, RegistrationData.password1 data with
  | Some username, Some password => inr (username, password)
  | _, _ => inl [("username", required)]
  end.

Definition sample_validate_email (s : string) : bool :=
  existsb (fun c => Ascii.eqb c "@") (list_ascii_of_string s).


Definition fresh_registration : RegistrationData.t :=
  RegistrationData.mk (Some "carol") (Some "carol@example.org ")
                      (Some " Carol ") None (Some "pw3") (Some "pw3").

Definition carol : User.t :=
  User.mk 3 "carol" "carol@example.org" "Carol" "" "pw3".

(** Requests of the sample users. *)
Definition as_anonymous : HttpRequest.t := request_of AnonymousUser GET [] [].
Definition as_alice : HttpRequest.t := request_of (Authenticated alice) GET [] [].
Definition as_bob : HttpRequest.t := request_of (Authenticated bob) GET [] [].
Definition bob_posts (data : QueryDict) : HttpRequest.t :=
  request_of (Authenticated bob) POST [] data.


(** A later instant, a stand-in for the profile form's validation, which
    here only requires a username, and the rows the sample requests store. *)
Definition sample_later : datetime := mk_datetime 2025 6 1 12 0 0 0.

Definition sample_clean_profile (users : list User.t) (object : User.t)
  (data : QueryDict) : FormErrors + (string * string * string * string) :=
  match QueryDict_get data "username" with
  | Some username => inr ("", "", username, User.email object)
  | None => inl [("username", required)]
  end.

Definition retitled_post : Post.t :=
  Post.mk 3 "New title" "text" sample_now true 2 None None None.

Definition new_post : Post.t :=
  Post.mk 5 "New title" "text" sample_now true 2 None None None.

Definition renamed_bob : User.t :=
  User.mk 2 "robert" "bob@example.org" "" "" "pw2".

(** ** Notions the further properties use *)

(** Every row is at least as recent as all the rows after it. *)
Definition newest_to_oldest (rows : list PostRow) : Prop :=
  StronglySorted (fun a b => row_newest_first a b = true) rows.

(** The rows of the whole listing a page object was cut from. *)
Definition listing (page_obj : Page.t PostRow) : list PostRow :=
  Paginator.object_list (Page.paginator page_obj).

(** Primary keys are unique within each table. *)
Definition keys_unique (db : DB) : Prop :=
  NoDup (map User.pk (users db))
  /\ NoDup (map Category.pk (categories db))
  /\ NoDup (map Location.pk (locations db))
  /\ NoDup (map Post.pk (posts db))
  /\ NoDup (map Comment.pk (comments db)).

(** Every stored comment is a comment on a stored post. *)
Definition comments_have_posts (db : DB) : Prop :=
  forall c, In c (comments db) ->
            In (Comment.post_id c) (map Post.pk (posts db)).

(** * Properties *)

(** Distinct keys of a written-out table. *)
Ltac distinct_keys :=
  simpl; repeat (constructor; [simpl; intuition discriminate|]); constructor.

(** ** Lists, keys and querysets *)

Lemma filter_filter_comm (A : Type) (f g : A -> bool) (l : list A) :
  filter f (filter g l) = filter g (filter f l).
Proof.
  induction l as [|a l IH]; simpl; [reflexivity|].
  destruct (g a) eqn:Hg, (f a) eqn:Hf; simpl; rewrite ?Hg, ?Hf, IH; reflexivity.
Qed.

Lemma filter_none (A : Type) (f : A -> bool) (l : list A) :
  (forall a, In a l -> f a = false) -> filter f l = [].
Proof.
  induction l as [|a l IH]; simpl; intros H; [reflexivity|].
  rewrite (H a (or_introl eq_refl)). apply IH. intros b Hb. apply H. now right.
Qed.

(** A key that occurs once in a table selects exactly its row. *)
Lemma filter_key_unique (A : Type) (key : A -> Z) (l : list A) (a : A) :
  NoDup (map key l) -> In a l ->
  filter (fun b => key b =? key a) l = [a].
Proof.
  induction l as [|b l IH]; simpl; intros Hnd Hin; [contradiction|].
  inversion Hnd as [|k ks Hnotin Hnd']; subst.
  destruct Hin as [->|Hin].
  - rewrite Z.eqb_refl. f_equal. apply filter_none.
    intros c Hc. apply Z.eqb_neq. intros Heq. apply Hnotin.
    rewrite <- Heq. now apply in_map.
  - assert (key b <> key a) as Hne.
    { intros Heq. apply Hnotin. rewrite Heq. now apply in_map. }
    apply Z.eqb_neq in Hne. rewrite Hne. now apply IH.
Qed.

Lemma filter_key_absent (A : Type) (key : A -> Z) (l : list A) (k : Z) :
  ~ In k (map key l) -> filter (fun b => key b =? k) l = [].
Proof.
  intros Hnotin. apply filter_none. intros a Ha. apply Z.eqb_neq.
  intros Heq. apply Hnotin. rewrite <- Heq. now apply in_map.
Qed.

Lemma find_key_unique (A : Type) (key : A -> Z) (l : list A) (a : A) :
  NoDup (map key l) -> In a l ->
  find (fun b => key b =? key a) l = Some a.
Proof.
  induction l as [|b l IH]; simpl; intros Hnd Hin; [contradiction|].
  inversion Hnd as [|k ks Hnotin Hnd']; subst.
  destruct Hin as [->|Hin].
  - now rewrite Z.eqb_refl.
  - assert (key b <> key a) as Hne.
    { intros Heq. apply Hnotin. rewrite Heq. now apply in_map. }
    apply Z.eqb_neq in Hne. rewrite Hne. now apply IH.
Qed.

Lemma Permutation_filter (A : Type) (f : A -> bool) (l l' : list A) :
  Permutation l l' -> Permutation (filter f l) (filter f l').
Proof.
  induction 1 as [|x l l' _ IH|x y l|l l' l'' _ IH1 _ IH2]; simpl.
  - constructor.
  - destruct (f x); [now constructor|assumption].
  - destruct (f x), (f y); try apply Permutation_refl; apply perm_swap.
  - now transitivity (filter f l').
Qed.

Lemma filter_map_fst (A B : Type) (f : A -> bool) (l : list (A * B)) :
  map fst (filter (fun r => f (fst r)) l) = filter f (map fst l).
Proof.
  induction l as [|r l IH]; simpl; [reflexivity|].
  destruct (f (fst r)); simpl; now rewrite IH.
Qed.

Lemma filter_andb (A : Type) (f g : A -> bool) (l : list A) :
  filter g (filter f l) = filter (fun a => f a && g a) l.
Proof.
  induction l as [|a l IH]; simpl; [reflexivity|].
  destruct (f a); simpl; [destruct (g a)|]; now rewrite IH.
Qed.

(** ** [order_by] *)

Section OrderByFacts.
Context {A : Type}.
Variable precedes : A -> A -> bool.

Lemma insert_row_perm (x : A) (l : list A) :
  Permutation (insert_row precedes x l) (x :: l).
Proof.
  induction l as [|y l IH]; simpl; [apply Permutation_refl|].
  destruct (precedes x y); [apply Permutation_refl|].
  transitivity (y :: x :: l); [now constructor|apply perm_swap].
Qed.

Lemma order_by_perm (l : list A) : Permutation (order_by precedes l) l.
Proof.
  induction l as [|x l IH]; simpl; [constructor|].
  transitivity (x :: order_by precedes l);
    [apply insert_row_perm|now constructor].
Qed.

Lemma order_by_In (l : list A) (a : A) :
  In a (order_by precedes l) <-> In a l.
Proof.
  split; apply Permutation_in;
    [apply order_by_perm|apply Permutation_sym, order_by_perm].
Qed.

Hypothesis precedes_total :
  forall a b, precedes a b = false -> precedes b a = true.

Lemma insert_row_sorted (x : A) (l : list A) :
  Sorted (fun a b => precedes a b = true) l ->
  Sorted (fun a b => precedes a b = true) (insert_row precedes x l).
Proof.
  induction l as [|y l IH]; simpl; intros Hs.
  - repeat constructor.
  - destruct (precedes x y) eqn:Hxy.
    + constructor; [assumption|now constructor].
    + inversion Hs as [|? ? Hs' Hhd]; subst.
      constructor; [now apply IH|].
      destruct l as [|z l]; simpl.
      * constructor. now apply precedes_total.
      * destruct (precedes x z); constructor.
        -- now apply precedes_total.
        -- now inversion Hhd.
Qed.

Lemma order_by_sorted (l : list A) :
  Sorted (fun a b => precedes a b = true) (order_by precedes l).
Proof.
  induction l as [|x l IH]; simpl; [constructor|now apply insert_row_sorted].
Qed.

End OrderByFacts.

(** ** The paginator *)

Section PaginatorFacts.
Context {A : Type}.
Variable l : list A.

Let p := Paginator.new l 10.
Let n := Z.of_nat (List.length l).
Let last := Paginator.num_pages p.

Lemma num_pages_bounds :
  1 <= last /\ 10 * (last - 1) < Z.max 1 n /\ Z.max 1 n <= 10 * last.
Proof.
  subst last p n. unfold Paginator.num_pages, Paginator.count.
  cbn [Paginator.new Paginator.object_list Paginator.per_page
       Paginator.orphans Paginator.allow_empty_first_page negb].
  rewrite andb_false_r. unfold Paginator.ceil_div. rewrite Z.sub_0_r.
  set (m := Z.max 1 (Z.of_nat (List.length l))).
  assert (1 <= m) as Hm by (subst m; lia). clearbody m.
  pose proof (Z.div_mod (- m) 10 ltac:(lia)) as Hdm.
  pose proof (Z.mod_pos_bound (- m) 10 ltac:(lia)) as Hmod.
  lia.
Qed.

Lemma selected_page_valid (number : option Z) :
  1 <= selected_page last number <= last.
Proof.
  pose proof num_pages_bounds as [H1 _].
  destruct number as [k|]; simpl; [|lia].
  destruct (k <? 1) eqn:E1; simpl; [lia|].
  destruct (k >? last) eqn:E2; [lia|].
  apply Z.ltb_ge in E1. rewrite Z.gtb_ltb in E2. apply Z.ltb_ge in E2. lia.
Qed.

Lemma validate_number_valid (k : Z) :
  1 <= k <= last -> Paginator.validate_number p (Py.Int k) = Return k.
Proof.
  intros [Hlo Hhi]. unfold Paginator.validate_number. simpl.
  destruct (k <? 1) eqn:E1; [apply Z.ltb_lt in E1; lia|].
  fold p. fold last.
  destruct (k >? last) eqn:E2; [|reflexivity].
  rewrite Z.gtb_ltb in E2. apply Z.ltb_lt in E2. lia.
Qed.

Lemma validate_number_selects (number : Py.value) :
  Paginator_get_page p number
  = Paginator_page p (Py.Int (selected_page last (Py.int number))).
Proof.
  pose proof num_pages_bounds as [H1 _].
  unfold Paginator_get_page, Paginator.validate_number, selected_page.
  destruct (Py.int number) as [k|]; [|reflexivity].
  destruct (k <? 1) eqn:E1; simpl; [reflexivity|].
  fold p. fold last.
  destruct (k >? last) eqn:E2; [|reflexivity].
  replace (k =? 1) with false; [reflexivity|].
  symmetry. apply Z.eqb_neq. apply Z.ltb_ge in E1.
  rewrite Z.gtb_ltb in E2. apply Z.ltb_lt in E2. lia.
Qed.

(** [get_page] always returns a page: the selected one, cut out of the
    listing at multiples of ten. *)
Lemma get_page_returns (number : Py.value) :
  let k := selected_page last (Py.int number) in
  Paginator_get_page p number
  = Return (Page.mk (Paginator.slice l (10 * (k - 1)) (Z.min (10 * k) n))
                    k p).
Proof.
  intros k. rewrite validate_number_selects.
  unfold Paginator_page.
  rewrite (validate_number_valid (selected_page_valid (Py.int number))).
  fold k. f_equal. f_equal.
  change (Paginator.per_page p) with 10.
  change (Paginator.orphans p) with 0.
  change (Paginator.count p) with n.
  change (Paginator.object_list p) with l.
  replace ((k - 1) * 10) with (10 * (k - 1)) by lia.
  destruct (10 * (k - 1) + 10 + 0 >=? n) eqn:E; f_equal.
  - apply Z.geb_le in E. lia.
  - rewrite Z.geb_leb in E. apply Z.leb_gt in E. lia.
Qed.


Lemma slice_In (bottom top : Z) (a : A) :
  In a (Paginator.slice l bottom top) -> In a l.
Proof.
  unfold Paginator.slice. intros H.
  rewrite <- (firstn_skipn (Z.to_nat bottom) l).
  apply in_or_app. right.
  rewrite <- (firstn_skipn (Z.to_nat (top - bottom))
                           (skipn (Z.to_nat bottom) l)).
  apply in_or_app. now left.
Qed.

End PaginatorFacts.

(** ** The detail view *)

Lemma post_detail_filter (db : DB) (now : datetime) (V : RequestUser)
  (post : Post.t) :
  (if is_authenticated V then
     user_is V (Post.author_id post)
     || Post.is_published post && category__is_published db post
        && pub_date__lte now post
   else
     Post.is_published post && category__is_published db post
     && pub_date__lte now post)
  = visible db now post V.
Proof.
  destruct V as [|u]; reflexivity.
Qed.

(** C1. For a stored post and any viewer, the detail view renders that post
    exactly when it is visible to the viewer (the viewer is its author, or it
    is published in a published category with a publication date that has
    come); otherwise it answers not-found, the very answer it gives for an
    id that no post has. *)
Theorem post_detail_iff_visible (db : DB) (now : datetime)
  (request : HttpRequest.t) :
  NoDup (map Post.pk (posts db)) ->
  (forall post, In post (posts db) ->
     post_detail db now request (Post.pk post)
     = if visible db now post (HttpRequest.user request)
       then render "blog/detail.html"
              (DetailContext.mk post
                 (filter (fun c => Comment.post_id c =? Post.pk post)
                         (comments db))
                 (if is_authenticated (HttpRequest.user request)
                  then Some CommentForm_unbound else None)
                 now)
       else Http404)
  /\ (forall post_id, ~ In post_id (map Post.pk (posts db)) ->
        post_detail db now request post_id = Http404).
Proof.
  intros Hnd. split.
  - intros post Hin. unfold post_detail.
    rewrite <- (post_detail_filter db now (HttpRequest.user request) post).
    destruct (is_authenticated (HttpRequest.user request));
      rewrite filter_filter_comm,
              (filter_key_unique Post.pk (posts db) post Hnd Hin);
      cbn [filter];
      match goal with |- context [if ?b then [post] else []] =>
        destruct b end; reflexivity.
  - intros post_id Hnotin. unfold post_detail.
    destruct (is_authenticated (HttpRequest.user request));
      rewrite filter_filter_comm, (filter_key_absent Post.pk _ _ Hnotin);
      reflexivity.
Qed.

Lemma post_detail_iff_visible_witness :
  NoDup (map Post.pk (posts sample_db))
  /\ In withdrawn_post (posts sample_db)
  /\ post_detail sample_db sample_now as_alice 2
     = render "blog/detail.html"
         (DetailContext.mk withdrawn_post [] (Some CommentForm_unbound)
                           sample_now)
  /\ post_detail sample_db sample_now as_bob 2 = Http404
  /\ post_detail sample_db sample_now as_anonymous 2 = Http404
  /\ post_detail sample_db sample_now as_anonymous 1
     = render "blog/detail.html"
         (DetailContext.mk shown_post [first_comment] None sample_now)
  /\ post_detail sample_db sample_now as_alice 99 = Http404.
Proof.
  assert (NoDup (map Post.pk (posts sample_db))) as Hnd by distinct_keys.
  assert (In withdrawn_post (posts sample_db)) as Hin by (simpl; auto).
  assert (In shown_post (posts sample_db)) as Hin' by (simpl; auto).
  repeat match goal with |- _ /\ _ => split end; try assumption.
  - exact (proj1 (post_detail_iff_visible sample_db sample_now as_alice Hnd)
                 withdrawn_post Hin).
  - exact (proj1 (post_detail_iff_visible sample_db sample_now as_bob Hnd)
                 withdrawn_post Hin).
  - exact (proj1 (post_detail_iff_visible sample_db sample_now as_anonymous Hnd)
                 withdrawn_post Hin).
  - exact (proj1 (post_detail_iff_visible sample_db sample_now as_anonymous Hnd)
                 shown_post Hin').
  - apply (proj2 (post_detail_iff_visible sample_db sample_now as_alice Hnd)).
    simpl. intuition discriminate.
Defined.

(** ** The listings *)

Lemma get_Got (A : Type) (qs : list A) (a : A) : get qs = Got a -> qs = [a].
Proof.
  destruct qs as [|b [|c qs]]; simpl; intros H; inversion H; reflexivity.
Qed.

Lemma get_object_or_404_inr (A C : Type) (qs : list A) (a : A) :
  @get_object_or_404 A C qs = inr a -> qs = [a].
Proof.
  unfold get_object_or_404. destruct (get qs) eqn:E; intros H; inversion H.
  subst. now apply get_Got.
Qed.

Lemma get_object_or_404_inl (A C : Type) (qs : list A)
  (response : HttpResponse C) :
  get_object_or_404 qs = inl response ->
  response = Http404 \/ response = Uncaught MultipleObjectsReturned.
Proof.
  unfold get_object_or_404. destruct (get qs); intros H; inversion H; auto.
Qed.

Lemma category__is_published_true (db : DB) (p : Post.t) :
  category__is_published db p = true ->
  exists c, category_of db p = Some c /\ Category.is_published c = true.
Proof.
  unfold category__is_published. destruct (category_of db p) as [c|];
    [eauto|discriminate].
Qed.

(** Every row of a page object comes from the rows handed to the paginator. *)
Lemma listed_in_rows (rows : list PostRow) (number : Py.value)
  (page_obj : Page.t PostRow) (post : Post.t) :
  Paginator_get_page (Paginator.new rows 10) number = Return page_obj ->
  listed page_obj post -> In post (map fst rows).
Proof.
  rewrite get_page_returns. intros H. inversion H; subst; clear H.
  unfold listed. cbn [Page.object_list Page.paginator Paginator.new
                      Paginator.object_list].
  intros [H|H]; [|assumption].
  apply in_map_iff in H as [row [<- Hrow]].
  apply in_map. eapply slice_In. eassumption.
Qed.

Lemma In_ordered_annotated (db : DB) (qs : list Post.t) (post : Post.t) :
  In post (map fst (order_by row_newest_first (annotate_comment_count db qs)))
  <-> In post qs.
Proof.
  rewrite in_map_iff. split.
  - intros [row [<- Hrow]]. apply order_by_In in Hrow.
    unfold annotate_comment_count in Hrow.
    apply in_map_iff in Hrow as [q [<- Hq]]. exact Hq.
  - intros Hin. exists (post, comment_count db post). split; [reflexivity|].
    apply order_by_In. unfold annotate_comment_count.
    apply in_map_iff. eauto.
Qed.

(** C2. Whoever the viewer is, the author included, every post the home
    listing or a category listing shows is published, belongs to a published
    category and has a publication date that is not in the future. *)
Theorem listings_published_only (db : DB) (now : datetime)
  (request : HttpRequest.t) :
  NoDup (map Category.pk (categories db)) ->
  (exists page_obj,
      index db now request = render "blog/index.html" (IndexContext.mk page_obj)
      /\ forall post, listed page_obj post -> published_only db now post)
  /\ (forall category_slug template context,
        category_posts db now request category_slug = render template context ->
        forall post, listed (CategoryContext.page_obj context) post ->
                     published_only db now post)
  /\ (forall request',
        HttpRequest.GET request' = HttpRequest.GET request ->
        index db now request' = index db now request
        /\ forall category_slug,
             category_posts db now request' category_slug
             = category_posts db now request category_slug).
Proof.
  intros Hnd. split; [|split].
  - unfold index.
    destruct (Paginator_get_page _ (page_number request)) as [page_obj|e] eqn:E;
      [|rewrite get_page_returns in E; discriminate].
    exists page_obj. split; [reflexivity|].
    intros post Hlisted.
    apply (listed_in_rows _ _ E) in Hlisted.
    apply In_ordered_annotated in Hlisted.
    apply filter_In in Hlisted as [_ Hf].
    apply andb_prop in Hf as [Hf Hcat]. apply andb_prop in Hf as [Hdate Hpub].
    repeat split; [assumption|now apply category__is_published_true|assumption].
  - intros category_slug template context. unfold category_posts.
    destruct (get_object_or_404 _) as [response|category] eqn:Hget.
    + intros ->. apply get_object_or_404_inl in Hget as [H|H]; discriminate.
    + apply get_object_or_404_inr in Hget.
      assert (In category (categories db)
              /\ Category.is_published category = true) as [Hin Hcpub].
      { assert (In category [category]) as H by now left.
        rewrite <- Hget in H. apply filter_In in H as [H1 H2].
        apply andb_prop in H2 as [_ H2]. now split. }
      destruct (Paginator_get_page _ (page_number request))
        as [page_obj|e] eqn:E; [|discriminate].
      intros H. inversion H; subst; clear H.
      cbn [CategoryContext.page_obj]. intros post Hlisted.
      apply (listed_in_rows _ _ E) in Hlisted.
      apply In_ordered_annotated in Hlisted.
      apply filter_In in Hlisted as [_ Hf].
      apply andb_prop in Hf as [Hf Hdate]. apply andb_prop in Hf as [Hcat Hpub].
      repeat split; [assumption| |assumption].
      exists category. split; [|assumption].
      unfold in_category in Hcat. unfold category_of.
      destruct (Post.category_id post) as [cid|]; [|discriminate].
      apply Z.eqb_eq in Hcat. subst cid.
      now apply find_key_unique.
  - intros request' HGET. unfold index, category_posts, page_number.
    rewrite HGET. split; reflexivity.
Qed.

Lemma listings_published_only_witness :
  NoDup (map Category.pk (categories sample_db))
  /\ (exists page_obj,
        index sample_db sample_now as_alice
        = render "blog/index.html" (IndexContext.mk page_obj)
        /\ forall post, listed page_obj post ->
                        published_only sample_db sample_now post)
  /\ (forall post,
        listed (Page.mk [(shown_post, 1)] 1
                        (Paginator.new [(shown_post, 1)] 10)) post ->
        published_only sample_db sample_now post).
Proof.
  assert (NoDup (map Category.pk (categories sample_db))) as Hnd
    by distinct_keys.
  split; [exact Hnd|]. split.
  - exact (proj1 (listings_published_only sample_db sample_now as_alice Hnd)).
  - exact (proj1 (proj2 (listings_published_only sample_db sample_now as_alice
                                                 Hnd))
                 "travel" "blog/category.html"
                 (CategoryContext.mk travel
                    (Page.mk [(shown_post, 1)] 1
                             (Paginator.new [(shown_post, 1)] 10)))
                 eq_refl).
Defined.

Lemma filter_name_unique (A : Type) (name : A -> string) (l : list A) (a : A) :
  NoDup (map name l) -> In a l ->
  filter (fun b => String.eqb (name b) (name a)) l = [a].
Proof.
  induction l as [|b l IH]; simpl; intros Hnd Hin; [contradiction|].
  inversion Hnd as [|k ks Hnotin Hnd']; subst.
  destruct Hin as [->|Hin].
  - rewrite String.eqb_refl. f_equal. apply filter_none.
    intros c Hc. apply String.eqb_neq. intros Heq. apply Hnotin.
    rewrite <- Heq. now apply in_map.
  - assert (name b <> name a) as Hne.
    { intros Heq. apply Hnotin. rewrite Heq. now apply in_map. }
    apply String.eqb_neq in Hne. rewrite Hne. now apply IH.
Qed.

Lemma map_fst_annotate (db : DB) (qs : list Post.t) :
  map fst (annotate_comment_count db qs) = qs.
Proof.
  unfold annotate_comment_count. rewrite map_map. simpl. apply map_id.
Qed.

Lemma published_only_iff (db : DB) (now : datetime) (post : Post.t) :
  Post.is_published post && category__is_published db post
  && pub_date__lte now post = true
  <-> published_only db now post.
Proof.
  unfold published_only, category__is_published, pub_date__lte.
  rewrite !andb_true_iff. split.
  - intros [[Hp Hc] Hd]. repeat split; try assumption.
    destruct (category_of db post) as [c|]; [eauto|discriminate].
  - intros [Hp [[c [-> Hc]] Hd]]. auto.
Qed.

(** C3. The profile page of a stored user lists, for that user as viewer,
    all of the user's posts whatever their state; for any other viewer,
    anonymous included, exactly those of the user's posts that are
    published, in a published category and not dated in the future. *)
Theorem profile_listing (db : DB) (now : datetime) (request : HttpRequest.t)
  (user : User.t) :
  NoDup (map User.username (users db)) -> In user (users db) ->
  exists page_obj,
    ProfileView db now request (User.username user)
    = render "blog/profile.html" (ProfileContext.mk user page_obj)
    /\ let listing :=
         map fst (Paginator.object_list (Page.paginator page_obj)) in
       (user_is (HttpRequest.user request) (User.pk user) = true ->
          Permutation listing
            (filter (fun p => Post.author_id p =? User.pk user) (posts db)))
       /\ (user_is (HttpRequest.user request) (User.pk user) = false ->
             forall post,
               In post listing
               <-> In post (posts db)
                   /\ Post.author_id post = User.pk user
                   /\ published_only db now post).
Proof.
  intros Hnd Hin. unfold ProfileView.
  rewrite (filter_name_unique User.username (users db) user Hnd Hin).
  cbn [get_object_or_404 get].
  rewrite get_page_returns. eexists. split; [reflexivity|].
  cbn [Page.paginator Paginator.new Paginator.object_list]. split.
  - intros ->. cbn [negb].
    rewrite (Permutation_map fst (order_by_perm row_newest_first _)).
    now rewrite map_fst_annotate.
  - intros ->. cbn [negb]. intros post.
    rewrite (filter_map_fst
               (fun p => Post.is_published p && category__is_published db p
                         && pub_date__lte now p)).
    rewrite filter_In, In_ordered_annotated, filter_In, published_only_iff.
    rewrite Z.eqb_eq. tauto.
Qed.

Lemma profile_listing_witness :
  NoDup (map User.username (users sample_db))
  /\ In alice (users sample_db)
  /\ (exists page_obj,
        ProfileView sample_db sample_now as_alice "alice"
        = render "blog/profile.html" (ProfileContext.mk alice page_obj)
        /\ Permutation
             (map fst (Paginator.object_list (Page.paginator page_obj)))
             [shown_post; withdrawn_post])
  /\ (exists page_obj,
        ProfileView sample_db sample_now as_bob "alice"
        = render "blog/profile.html" (ProfileContext.mk alice page_obj)
        /\ forall post,
             In post (map fst (Paginator.object_list (Page.paginator page_obj)))
             <-> In post (posts sample_db)
                 /\ Post.author_id post = 1
                 /\ published_only sample_db sample_now post).
Proof.
  assert (NoDup (map User.username (users sample_db))) as Hnd.
  { simpl. repeat (constructor; [simpl; intuition discriminate|]). constructor. }
  assert (In alice (users sample_db)) as Hin by (simpl; auto).
  split; [exact Hnd|]. split; [exact Hin|]. split.
  - destruct (profile_listing sample_db sample_now as_alice alice Hnd Hin)
      as [page_obj [Hview [Hown _]]].
    exists page_obj. split; [exact Hview|exact (Hown eq_refl)].
  - destruct (profile_listing sample_db sample_now as_bob alice Hnd Hin)
      as [page_obj [Hview [_ Hother]]].
    exists page_obj. split; [exact Hview|exact (Hother eq_refl)].
Defined.

(** ** The authorization gate *)

Lemma author_gate_mixins (A C : Type) (table : DB -> list A)
  (pk author_id : A -> Z) (id : Z) (handle : View C) :
  author_gate table pk author_id id
    (LoginRequiredMixin
       (AuthorRequiredMixin
          (fun db => get_object_or_404
                       (filter (fun a => pk a =? id) (table db)))
          author_id handle))
    handle.
Proof.
  intros db request Hnd.
  unfold LoginRequiredMixin, AuthorRequiredMixin, UserPassesTestMixin,
         test_func, handle_no_permission.
  destruct (HttpRequest.user request) as [|u]; cbn [is_authenticated negb];
    [reflexivity|].
  split.
  - intros Hnotin. now rewrite (filter_key_absent pk _ _ Hnotin).
  - intros obj Hin <-.
    rewrite (filter_key_unique pk (table db) obj Hnd Hin).
    cbn [get_object_or_404 get user_is].
    destruct (User.pk u =? author_id obj); reflexivity.
Qed.

(** C4, as the views implement it. For editing and deleting a post or a
    comment: an anonymous requester is redirected to the login page, whether
    or not the resource exists; an authenticated requester gets not-found
    for a missing resource, forbidden for a resource of another author, and
    reaches the edit or delete handler only as the author. *)
Theorem edit_delete_author_gate (category_required location_required : bool)
  (clean_content : QueryDict -> FormErrors + PostContent.t) (now : datetime)
  (post_id comment_id : Z) :
  author_gate posts Post.pk Post.author_id post_id
    (PostUpdateView category_required location_required clean_content now
                    post_id)
    (PostUpdateView_handle category_required location_required clean_content
                           now post_id)
  /\ author_gate posts Post.pk Post.author_id post_id
       (PostDeleteView now post_id) (PostDeleteView_handle now post_id)
  /\ author_gate comments Comment.pk Comment.author_id comment_id
       (CommentUpdateView post_id comment_id)
       (CommentUpdateView_handle post_id comment_id)
  /\ author_gate comments Comment.pk Comment.author_id comment_id
       (CommentDeleteView post_id comment_id)
       (CommentDeleteView_handle post_id comment_id).
Proof.
  repeat split; apply author_gate_mixins.
Qed.

Lemma edit_delete_author_gate_witness :
  NoDup (map Post.pk (posts sample_db))
  /\ NoDup (map Comment.pk (comments sample_db))
  /\ PostUpdateView false false sample_clean_content sample_now 1
       sample_db as_bob
     = (sample_db, PermissionDenied)
  /\ PostDeleteView sample_now 99 sample_db as_bob = (sample_db, Http404)
  /\ CommentUpdateView 1 1 sample_db as_anonymous
     = (sample_db, redirect login_url)
  /\ CommentDeleteView 1 1 sample_db as_bob
     = CommentDeleteView_handle 1 1 sample_db as_bob.
Proof.
  assert (NoDup (map Post.pk (posts sample_db))) as Hposts by distinct_keys.
  assert (NoDup (map Comment.pk (comments sample_db))) as Hcomments
    by distinct_keys.
  destruct (edit_delete_author_gate false false sample_clean_content
                                    sample_now 1 1)
    as [Hupdate [_ [Hcupdate Hcdelete]]].
  destruct (edit_delete_author_gate false false sample_clean_content
                                    sample_now 99 1)
    as [_ [Hdelete _]].
  repeat match goal with |- _ /\ _ => split end; try assumption.
  - exact (proj2 (Hupdate sample_db as_bob Hposts) shown_post
                 (or_introl eq_refl) eq_refl).
  - apply (proj1 (Hdelete sample_db as_bob Hposts)).
    simpl. intuition discriminate.
  - exact (Hcupdate sample_db as_anonymous Hcomments).
  - exact (proj2 (Hcdelete sample_db as_bob Hcomments) first_comment
                 (or_introl eq_refl) eq_refl).
Defined.

(** C4, where the specification's sentence fails: an anonymous request to edit a post
    that does not exist is answered with the login redirect, not with
    not-found. *)
Lemma anonymous_edit_of_missing_post :
  ~ In 99 (map Post.pk (posts sample_db))
  /\ PostUpdateView false false sample_clean_content sample_now 99
       sample_db (request_of AnonymousUser GET [] [])
     = (sample_db, redirect login_url)
  /\ PostUpdateView false false sample_clean_content sample_now 99
       sample_db (request_of AnonymousUser GET [] [])
     <> (sample_db, Http404).
Proof.
  split; [|split].
  - simpl. intros H. repeat (destruct H as [H|H]; [discriminate H|]). exact H.
  - reflexivity.
  - intros H. discriminate H.
Qed.

(** ** Adding a comment *)




(** ** Pages *)






(** ** The post editor *)

Lemma key_injective (A : Type) (key : A -> Z) (l : list A) (a b : A) :
  NoDup (map key l) -> In a l -> In b l -> key b = key a -> b = a.
Proof.
  intros Hnd Ha Hb Hkey.
  assert (In b (filter (fun c => key c =? key a) l)) as H.
  { apply filter_In. split; [assumption|now apply Z.eqb_eq]. }
  rewrite (filter_key_unique key l a Hnd Ha) in H.
  destruct H as [H|[]]. now symmetry.
Qed.

Lemma by_title_total (a b : Category.t) :
  by_title a b = false -> by_title b a = true.
Proof.
  unfold by_title. intros H.
  destruct (String.leb_total (Category.title a) (Category.title b)) as [H'|H'];
    [congruence|assumption].
Qed.

Lemma by_name_total (a b : Location.t) :
  by_name a b = false -> by_name b a = true.
Proof.
  unfold by_name. intros H.
  destruct (String.leb_total (Location.name a) (Location.name b)) as [H'|H'];
    [congruence|assumption].
Qed.

(** A submitted key that belongs to a row outside the queryset is an
    invalid choice. *)
Lemma ModelChoiceField_rejects (A : Type) (pk : A -> Z) (table queryset : list A)
  (is_required : bool) (value : string) (a : A) :
  NoDup (map pk table) -> In a table ->
  (forall b, In b queryset -> In b table) -> ~ In a queryset ->
  Py.int_of_str value = Some (pk a) ->
  ModelChoiceField_clean pk queryset is_required (Some value)
  = inl [invalid_choice].
Proof.
  intros Hnd Ha Hsub Hout Hint. unfold ModelChoiceField_clean.
  destruct value as [|c value]; [discriminate Hint|].
  rewrite Hint.
  rewrite (filter_none (fun b => pk b =? pk a) queryset); [reflexivity|].
  intros b Hb. apply Z.eqb_neq. intros Heq. apply Hout.
  now rewrite <- (key_injective pk table a b Hnd Ha (Hsub b Hb) Heq).
Qed.

(** C6, as the form implements it. The category choices of the post editor
    are exactly the published categories, ordered by title, and the location
    choices exactly the published locations, ordered by name. The same
    querysets validate the submission: an accepted category or location is
    one of the choices, and the key of an unpublished one, also of the one
    the post already has, is rejected as an invalid choice. *)
Theorem PostForm_choices (category_required location_required : bool)
  (db : DB) (now : datetime) (data : option QueryDict)
  (instance : option Post.t) :
  let form := PostForm_init db now data instance in
  (Permutation (PostForm.category_queryset form)
               (filter Category.is_published (categories db))
   /\ Sorted (fun a b => String.leb (Category.title a) (Category.title b) = true)
             (PostForm.category_queryset form))
  /\ (Permutation (PostForm.location_queryset form)
                  (filter Location.is_published (locations db))
      /\ Sorted (fun a b => String.leb (Location.name a) (Location.name b) = true)
                (PostForm.location_queryset form))
  /\ (forall submitted c,
        PostForm_clean_category category_required form submitted = inr (Some c) ->
        In c (categories db) /\ Category.is_published c = true)
  /\ (forall submitted l,
        PostForm_clean_location location_required form submitted = inr (Some l) ->
        In l (locations db) /\ Location.is_published l = true)
  /\ (forall submitted value c,
        NoDup (map Category.pk (categories db)) ->
        In c (categories db) -> Category.is_published c = false ->
        QueryDict_get submitted "category" = Some value ->
        Py.int_of_str value = Some (Category.pk c) ->
        PostForm_clean_category category_required form submitted
        = inl [invalid_choice])
  /\ (forall submitted value l,
        NoDup (map Location.pk (locations db)) ->
        In l (locations db) -> Location.is_published l = false ->
        QueryDict_get submitted "location" = Some value ->
        Py.int_of_str value = Some (Location.pk l) ->
        PostForm_clean_location location_required form submitted
        = inl [invalid_choice]).
Proof.
  intros form. subst form.
  unfold PostForm_clean_category, PostForm_clean_location, PostForm_init.
  cbn [PostForm.category_queryset PostForm.location_queryset].
  assert (forall c, In c (order_by by_title
                            (filter Category.is_published (categories db)))
                    <-> In c (categories db) /\ Category.is_published c = true)
    as Hcat by (intros c; now rewrite order_by_In, filter_In).
  assert (forall l, In l (order_by by_name
                            (filter Location.is_published (locations db)))
                    <-> In l (locations db) /\ Location.is_published l = true)
    as Hloc by (intros l; now rewrite order_by_In, filter_In).
  repeat match goal with |- _ /\ _ => split end.
  - apply order_by_perm.
  - apply (order_by_sorted by_title by_title_total).
  - apply order_by_perm.
  - apply (order_by_sorted by_name by_name_total).
  - intros submitted c. unfold ModelChoiceField_clean.
    destruct (QueryDict_get submitted "category") as [[|ch value]|];
      try (destruct category_required; discriminate).
    destruct (Py.int_of_str _) as [key|]; [|discriminate].
    destruct (get _) as [a| |] eqn:E; try discriminate.
    intros H. injection H as <-. apply get_Got in E.
    apply Hcat. assert (In a [a]) as Ha by now left.
    rewrite <- E in Ha. now apply filter_In in Ha.
  - intros submitted l. unfold ModelChoiceField_clean.
    destruct (QueryDict_get submitted "location") as [[|ch value]|];
      try (destruct location_required; discriminate).
    destruct (Py.int_of_str _) as [key|]; [|discriminate].
    destruct (get _) as [a| |] eqn:E; try discriminate.
    intros H. injection H as <-. apply get_Got in E.
    apply Hloc. assert (In a [a]) as Ha by now left.
    rewrite <- E in Ha. now apply filter_In in Ha.
  - intros submitted value c Hnd Hin Hpub -> Hint.
    apply (ModelChoiceField_rejects Category.pk (categories db) _ _ _ c);
      try assumption.
    + intros b Hb. now apply Hcat in Hb.
    + intros H. apply Hcat in H. destruct H as [_ H]. congruence.
  - intros submitted value l Hnd Hin Hpub -> Hint.
    apply (ModelChoiceField_rejects Location.pk (locations db) _ _ _ l);
      try assumption.
    + intros b Hb. now apply Hloc in Hb.
    + intros H. apply Hloc in H. destruct H as [_ H]. congruence.
Qed.

Lemma PostForm_choices_witness :
  let form := PostForm_init sample_db sample_now (Some keep_category)
                            (Some hidden_post) in
  NoDup (map Category.pk (categories sample_db))
  /\ In hidden (categories sample_db)
  /\ Category.is_published hidden = false
  /\ QueryDict_get keep_category "category" = Some "2"
  /\ Py.int_of_str "2" = Some (Category.pk hidden)
  /\ PostForm_clean_category false form keep_category = inl [invalid_choice]
  /\ Permutation (PostForm.category_queryset form) [travel]
  /\ PostForm_clean_category false form [("category", "1")]
     = inr (Some travel)
  /\ In travel (categories sample_db)
  /\ Category.is_published travel = true.
Proof.
  cbv zeta.
  assert (NoDup (map Category.pk (categories sample_db))) as Hnd
    by distinct_keys.
  assert (In hidden (categories sample_db)) as Hin by (simpl; auto).
  destruct (PostForm_choices false false sample_db sample_now
                             (Some keep_category) (Some hidden_post))
    as [[Hperm _] [_ [Haccept [_ [Hreject _]]]]].
  split; [exact Hnd|]. split; [exact Hin|].
  split; [reflexivity|]. split; [reflexivity|]. split; [reflexivity|].
  split; [|split; [|split]].
  - exact (Hreject keep_category "2" hidden Hnd Hin eq_refl eq_refl eq_refl).
  - exact Hperm.
  - reflexivity.
  - exact (Haccept [("category", "1")] travel eq_refl).
Defined.

(** C6, where the specification's sentence fails: [hidden_post] is assigned the
    unpublished category [hidden]. Its editor does not offer that category;
    sending the category's key back is a validation failure that leaves the
    post as it was; and sending no category, with the category optional,
    saves the post without one. *)
Lemma assigned_unpublished_category_is_rejected :
  let form keep :=
    PostForm_init sample_db sample_now keep (Some hidden_post) in
  let author_posts data := request_of (Authenticated bob) POST [] data in
  In hidden_post (posts sample_db)
  /\ category_of sample_db hidden_post = Some hidden
  /\ Category.is_published hidden = false
  /\ ~ In hidden (PostForm.category_queryset (form None))
  /\ PostForm_clean_category false (form (Some keep_category)) keep_category
     = inl [invalid_choice]
  /\ PostUpdateView false false sample_clean_content sample_now 3 sample_db
       (author_posts keep_category)
     = (sample_db,
        render "blog/create.html"
          (PostContext.mk hidden_post (form (Some keep_category))
                          [("category", invalid_choice)]))
  /\ (exists db' saved,
        PostUpdateView false false sample_clean_content sample_now 3 sample_db
          (author_posts no_category)
        = (db', redirect (blog_post_detail 3))
        /\ In saved (posts db') /\ Post.pk saved = 3
        /\ Post.category_id saved = None).
Proof.
  cbv zeta. repeat match goal with |- _ /\ _ => split end.
  - simpl. auto.
  - reflexivity.
  - reflexivity.
  - simpl. intros [H|[]]. discriminate H.
  - reflexivity.
  - reflexivity.
  - eexists. eexists. split; [reflexivity|]. simpl.
    split; [right; right; left; reflexivity|split; reflexivity].
Qed.

(** ** The publication date of the editor *)








(** ** Registration *)


Lemma existsb_email (users : list User.t) (email : string) :
  existsb (fun u => String.eqb (User.email u) email) users = true
  <-> In email (map User.email users).
Proof.
  rewrite existsb_exists, in_map_iff. split.
  - intros [u [Hin Heq]]. apply String.eqb_eq in Heq. eauto.
  - intros [u [Heq Hin]]. exists u. split; [assumption|].
    now apply String.eqb_eq.
Qed.

Section RegistrationFacts.
Variable UserCreationForm_clean :
  list User.t -> RegistrationData.t -> FormErrors + (string * string).
Variable validate_email : string -> bool.

Let save := CustomUserCreationForm_save UserCreationForm_clean validate_email.


End RegistrationFacts.


(** ** Editing and deleting a comment *)



(** * Further properties of the views and forms *)

(** ** The order of timestamps *)

Lemma lex_compare_antisym (a b : list Z) :
  lex_compare b a = CompOpp (lex_compare a b).
Proof.
  revert b. induction a as [|x a IH]; intros [|y b]; simpl; try reflexivity.
  rewrite (Z.compare_antisym x y).
  destruct (x ?= y)%Z; simpl; [apply IH|reflexivity|reflexivity].
Qed.

Lemma lex_compare_trans (a b c : list Z) :
  lex_compare a b <> Gt -> lex_compare b c <> Gt -> lex_compare a c <> Gt.
Proof.
  revert b c. induction a as [|x a IH]; intros [|y b] [|z c]; simpl;
    try congruence.
  destruct (Z.compare_spec x y), (Z.compare_spec y z), (Z.compare_spec x z);
    try congruence; try lia; subst; eauto.
Qed.

Lemma datetime_leb_total (a b : datetime) :
  datetime_leb a b = false -> datetime_leb b a = true.
Proof.
  unfold datetime_leb, datetime_compare.
  rewrite (lex_compare_antisym (datetime_fields a) (datetime_fields b)).
  destruct (lex_compare (datetime_fields a) (datetime_fields b));
    simpl; congruence.
Qed.

Lemma datetime_leb_trans (a b c : datetime) :
  datetime_leb a b = true -> datetime_leb b c = true ->
  datetime_leb a c = true.
Proof.
  unfold datetime_leb, datetime_compare. intros Hab Hbc.
  pose proof (lex_compare_trans (datetime_fields a) (datetime_fields b)
                                (datetime_fields c)) as H.
  destruct (lex_compare (datetime_fields a) (datetime_fields b));
    destruct (lex_compare (datetime_fields b) (datetime_fields c));
    destruct (lex_compare (datetime_fields a) (datetime_fields c));
    try reflexivity; try discriminate;
    exfalso; apply H; congruence.
Qed.

(** ** Listings are ordered *)

Lemma StronglySorted_filter (A : Type) (R : A -> A -> Prop) (f : A -> bool)
  (l : list A) :
  StronglySorted R l -> StronglySorted R (filter f l).
Proof.
  induction 1 as [|a l Hs IH Hall]; simpl; [constructor|].
  destruct (f a); [|assumption].
  constructor; [assumption|].
  rewrite Forall_forall in *. intros b Hb.
  apply filter_In in Hb as [Hb _]. now apply Hall.
Qed.

Lemma StronglySorted_skipn (A : Type) (R : A -> A -> Prop) (n : nat)
  (l : list A) :
  StronglySorted R l -> StronglySorted R (skipn n l).
Proof.
  revert l. induction n as [|n IH]; intros l Hs; [assumption|].
  destruct l as [|a l]; [constructor|].
  simpl. apply IH. now inversion Hs.
Qed.

Lemma StronglySorted_firstn (A : Type) (R : A -> A -> Prop) (n : nat)
  (l : list A) :
  StronglySorted R l -> StronglySorted R (firstn n l).
Proof.
  revert l. induction n as [|n IH]; intros l Hs; [constructor|].
  destruct l as [|a l]; [constructor|].
  inversion Hs as [|? ? Hs' Hall]; subst. simpl.
  constructor; [now apply IH|].
  rewrite Forall_forall in *. intros b Hb. apply Hall.
  rewrite <- (firstn_skipn n l). apply in_or_app. now left.
Qed.

Lemma order_by_newest_to_oldest (rows : list PostRow) :
  newest_to_oldest (order_by row_newest_first rows).
Proof.
  apply Sorted_StronglySorted.
  - intros a b c Hab Hbc. unfold row_newest_first, newest_first in *.
    now apply (datetime_leb_trans _ (Post.pub_date (fst b))).
  - apply order_by_sorted. intros a b. unfold row_newest_first, newest_first.
    apply datetime_leb_total.
Qed.

Lemma get_page_newest_to_oldest (rows : list PostRow) (number : Py.value)
  (page_obj : Page.t PostRow) :
  newest_to_oldest rows ->
  Paginator_get_page (Paginator.new rows 10) number = Return page_obj ->
  newest_to_oldest (listing page_obj)
  /\ newest_to_oldest (Page.object_list page_obj).
Proof.
  intros Hs. rewrite get_page_returns. intros H. injection H as <-.
  unfold listing.
  cbn [Page.paginator Page.object_list Paginator.new Paginator.object_list].
  split; [assumption|].
  unfold Paginator.slice. now apply StronglySorted_firstn, StronglySorted_skipn.
Qed.

(** X1. On the home, category and profile pages the posts come newest
    first: on the page shown and in the whole listing, every post is at
    least as recent as all the posts after it. *)
Theorem listings_newest_first (db : DB) (now : datetime)
  (request : HttpRequest.t) :
  (forall template context,
      index db now request = render template context ->
      newest_to_oldest (listing (IndexContext.page_obj context))
      /\ newest_to_oldest (Page.object_list (IndexContext.page_obj context)))
  /\ (forall category_slug template context,
        category_posts db now request category_slug = render template context ->
        newest_to_oldest (listing (CategoryContext.page_obj context))
        /\ newest_to_oldest
             (Page.object_list (CategoryContext.page_obj context)))
  /\ (forall username template context,
        ProfileView db now request username = render template context ->
        newest_to_oldest (listing (ProfileContext.page_obj context))
        /\ newest_to_oldest
             (Page.object_list (ProfileContext.page_obj context))).
Proof.
  split; [|split].
  - intros template context. unfold index.
    destruct (Paginator_get_page _ _) as [page_obj|e] eqn:E; [|discriminate].
    intros H. injection H as _ <-.
    eapply get_page_newest_to_oldest; [|exact E].
    apply order_by_newest_to_oldest.
  - intros category_slug template context. unfold category_posts.
    destruct (get_object_or_404 _) as [response|category] eqn:Hget.
    { intros ->. apply get_object_or_404_inl in Hget as [H|H]; discriminate. }
    destruct (Paginator_get_page _ _) as [page_obj|e] eqn:E; [|discriminate].
    intros H. injection H as _ <-.
    eapply get_page_newest_to_oldest; [|exact E].
    apply order_by_newest_to_oldest.
  - intros username template context. unfold ProfileView.
    destruct (get_object_or_404 _) as [response|user] eqn:Hget.
    { intros ->. apply get_object_or_404_inl in Hget as [H|H]; discriminate. }
    destruct (Paginator_get_page _ _) as [page_obj|e] eqn:E; [|discriminate].
    intros H. injection H as _ <-.
    eapply get_page_newest_to_oldest; [|exact E].
    destruct (negb _); [apply StronglySorted_filter|];
      apply order_by_newest_to_oldest.
Qed.

Lemma listings_newest_first_witness :
  newest_to_oldest
    (listing (Page.mk [(shown_post, 1)] 1 (Paginator.new [(shown_post, 1)] 10)))
  /\ (exists context,
        ProfileView sample_db sample_now as_alice "alice"
        = render "blog/profile.html" context
        /\ map (fun row => Post.pk (fst row))
               (Page.object_list (ProfileContext.page_obj context))
           = [2; 1]
        /\ newest_to_oldest
             (Page.object_list (ProfileContext.page_obj context))).
Proof.
  split.
  - exact (proj1 (proj1 (listings_newest_first sample_db sample_now as_alice)
                        "blog/index.html"
                        (IndexContext.mk
                           (Page.mk [(shown_post, 1)] 1
                                    (Paginator.new [(shown_post, 1)] 10)))
                        eq_refl)).
  - eexists. split; [reflexivity|]. split; [reflexivity|].
    exact (proj2 (proj2 (proj2 (listings_newest_first sample_db sample_now
                                                      as_alice))
                        "alice" "blog/profile.html" _ eq_refl)).
Defined.

(** ** What the listings contain *)

Lemma listing_of_rows (rows : list PostRow) (number : Py.value)
  (page_obj : Page.t PostRow) :
  Paginator_get_page (Paginator.new rows 10) number = Return page_obj ->
  listing page_obj = rows.
Proof.
  rewrite get_page_returns. intros H. injection H as <-. reflexivity.
Qed.

(** X2. The home listing holds every stored post that is published, in a
    published category and not dated in the future, each as often as it is
    stored; the listing of a category holds exactly the posts of that
    category that are published and not dated in the future. *)
Theorem listings_complete (db : DB) (now : datetime)
  (request : HttpRequest.t) :
  (forall template context,
      index db now request = render template context ->
      Permutation
        (map fst (listing (IndexContext.page_obj context)))
        (filter (fun p => Post.is_published p && category__is_published db p
                          && pub_date__lte now p)
                (posts db)))
  /\ (forall category_slug template context,
        category_posts db now request category_slug = render template context ->
        let category := CategoryContext.category context in
        In category (categories db)
        /\ Category.slug category = category_slug
        /\ Category.is_published category = true
        /\ Permutation
             (map fst (listing (CategoryContext.page_obj context)))
             (filter (fun p => match Post.category_id p with
                               | Some cid => cid =? Category.pk category
                               | None => false
                               end
                               && Post.is_published p && pub_date__lte now p)
                     (posts db))).
Proof.
  split.
  - intros template context. unfold index.
    destruct (Paginator_get_page _ _) as [page_obj|e] eqn:E; [|discriminate].
    intros H. injection H as _ <-. cbn [IndexContext.page_obj].
    rewrite (listing_of_rows _ _ E).
    rewrite (Permutation_map fst (order_by_perm row_newest_first _)).
    rewrite map_fst_annotate.
    erewrite filter_ext; [reflexivity|].
    intros p. cbv beta.
    destruct (pub_date__lte now p), (Post.is_published p),
             (category__is_published db p); reflexivity.
  - intros category_slug template context. unfold category_posts.
    destruct (get_object_or_404 _) as [response|category] eqn:Hget.
    { intros ->. apply get_object_or_404_inl in Hget as [H|H]; discriminate. }
    apply get_object_or_404_inr in Hget.
    assert (In category [category]) as Hin by now left.
    rewrite <- Hget in Hin. apply filter_In in Hin as [Hin Hf].
    apply andb_prop in Hf as [Hslug Hpub]. apply String.eqb_eq in Hslug.
    destruct (Paginator_get_page _ _) as [page_obj|e] eqn:E; [|discriminate].
    intros H. injection H as _ <-.
    cbn [CategoryContext.page_obj CategoryContext.category].
    rewrite (listing_of_rows _ _ E).
    rewrite (Permutation_map fst (order_by_perm row_newest_first _)).
    rewrite map_fst_annotate.
    repeat split; try assumption. reflexivity.
Qed.

(** ** The pages of a listing *)

Lemma firstn_add (A : Type) (a b : nat) (l : list A) :
  firstn (a + b) l = (firstn a l ++ firstn b (skipn a l))%list.
Proof.
  revert l. induction a as [|a IH]; intros l; [reflexivity|].
  destruct l as [|x l]; simpl; [now rewrite firstn_nil|].
  now rewrite IH.
Qed.

Lemma concat_chunks (A : Type) (c N : nat) (l : list A) :
  List.concat (map (fun j => firstn c (skipn (c * j) l)) (seq 0 N))
  = firstn (c * N) l.
Proof.
  induction N as [|N IH]; [now rewrite Nat.mul_0_r|].
  rewrite seq_S, map_app, concat_app, IH. simpl.
  rewrite app_nil_r.
  replace (c * S N)%nat with (c * N + c)%nat by lia.
  now rewrite firstn_add.
Qed.

Lemma page_is_chunk (A : Type) (l : list A) (j : nat) :
  (j < Z.to_nat (Paginator.num_pages (Paginator.new l 10)))%nat ->
  Paginator_get_page (Paginator.new l 10) (Py.Int (Z.of_nat (S j)))
  = Return (Page.mk (firstn 10 (skipn (10 * j) l)) (Z.of_nat (S j))
                    (Paginator.new l 10)).
Proof.
  intros Hj. rewrite get_page_returns.
  pose proof (num_pages_bounds l) as [Hone [Hlow Hhigh]].
  cbv zeta in Hone, Hlow, Hhigh.
  set (last := Paginator.num_pages (Paginator.new l 10)) in *.
  assert (selected_page last (Py.int (Py.Int (Z.of_nat (S j))))
          = Z.of_nat (S j)) as ->.
  { unfold selected_page, Py.int.
    destruct (Z.of_nat (S j) <? 1) eqn:E1; [apply Z.ltb_lt in E1; lia|].
    destruct (Z.of_nat (S j) >? last) eqn:E2; [|reflexivity].
    rewrite Z.gtb_ltb in E2. apply Z.ltb_lt in E2. lia. }
  f_equal. f_equal. unfold Paginator.slice.
  replace (Z.to_nat (10 * (Z.of_nat (S j) - 1))) with (10 * j)%nat by lia.
  set (n := Z.of_nat (List.length l)) in *.
  destruct (Z.le_gt_cases (10 * Z.of_nat (S j)) n) as [Hfull|Hlast].
  - f_equal. lia.
  - replace (Z.to_nat (Z.min (10 * Z.of_nat (S j)) n
                       - 10 * (Z.of_nat (S j) - 1)))
      with (List.length (skipn (10 * j) l))
      by (rewrite length_skipn; subst n; lia).
    rewrite firstn_all. symmetry. apply firstn_all2.
    rewrite length_skipn. subst n. lia.
Qed.

(** X3. The pages of a listing, taken in order from page 1 to the last page,
    put end to end give the listing back: paging loses no row, repeats none
    and keeps the order. *)
Theorem pages_partition_listing (A : Type) (l : list A) :
  let paginator := Paginator.new l 10 in
  List.concat
    (map (fun k =>
            match Paginator_get_page paginator (Py.Int (Z.of_nat k)) with
            | Return page_obj => Page.object_list page_obj
            | Raise _ => []
            end)
         (seq 1 (Z.to_nat (Paginator.num_pages paginator))))
  = l.
Proof.
  intros paginator. subst paginator.
  rewrite <- seq_shift, map_map.
  rewrite (map_ext_in _ (fun j => firstn 10 (skipn (10 * j) l))).
  - rewrite concat_chunks. apply firstn_all2.
    pose proof (num_pages_bounds l) as [Hone [_ Hhigh]].
    cbv zeta in Hone, Hhigh. lia.
  - intros j Hj. apply in_seq in Hj.
    rewrite page_is_chunk by lia. reflexivity.
Qed.

(** ** Unknown and hidden scopes *)

(** X4. A category page answers not-found when no published category has
    the requested slug, so an unpublished category cannot be told from an
    unknown slug; a published category with a unique slug gets its page. A
    profile page answers not-found for an unknown username. *)
Theorem scope_not_found (db : DB) (now : datetime) (request : HttpRequest.t) :
  (forall category_slug,
      (forall c, In c (categories db) -> Category.slug c = category_slug ->
                 Category.is_published c = false) ->
      category_posts db now request category_slug = Http404)
  /\ (forall category,
        NoDup (map Category.slug (categories db)) ->
        In category (categories db) ->
        Category.is_published category = true ->
        exists page_obj,
          category_posts db now request (Category.slug category)
          = render "blog/category.html" (CategoryContext.mk category page_obj))
  /\ (forall username,
        ~ In username (map User.username (users db)) ->
        ProfileView db now request username = Http404).
Proof.
  split; [|split].
  - intros category_slug Hnone. unfold category_posts.
    rewrite filter_none; [reflexivity|].
    intros c Hc. destruct (String.eqb_spec (Category.slug c) category_slug)
      as [Heq|Hne]; [|reflexivity].
    now rewrite (Hnone c Hc Heq).
  - intros category Hnd Hin Hpub. unfold category_posts.
    rewrite <- (filter_andb (fun c => String.eqb (Category.slug c)
                                                 (Category.slug category))
                            Category.is_published).
    rewrite (filter_name_unique Category.slug (categories db) category Hnd Hin).
    cbn [filter]. rewrite Hpub. cbn [get_object_or_404 get].
    rewrite get_page_returns. eexists. reflexivity.
  - intros username Hnotin. unfold ProfileView.
    rewrite filter_none; [reflexivity|].
    intros u Hu. apply String.eqb_neq. intros Heq. apply Hnotin.
    rewrite <- Heq. now apply in_map.
Qed.

Lemma scope_not_found_witness :
  (forall c, In c (categories sample_db) -> Category.slug c = "hidden" ->
             Category.is_published c = false)
  /\ category_posts sample_db sample_now as_alice "hidden" = Http404
  /\ category_posts sample_db sample_now as_alice "nowhere" = Http404
  /\ NoDup (map Category.slug (categories sample_db))
  /\ (exists page_obj,
        category_posts sample_db sample_now as_alice "travel"
        = render "blog/category.html" (CategoryContext.mk travel page_obj))
  /\ ProfileView sample_db sample_now as_alice "carol" = Http404.
Proof.
  assert (forall c, In c (categories sample_db) -> Category.slug c = "hidden" ->
                    Category.is_published c = false) as Hhidden.
  { intros c [<-|[<-|[]]]; [discriminate|reflexivity]. }
  assert (NoDup (map Category.slug (categories sample_db))) as Hnd
    by distinct_keys.
  destruct (scope_not_found sample_db sample_now as_alice)
    as [Hnone [Hshown Huser]].
  split; [exact Hhidden|]. split; [exact (Hnone "hidden" Hhidden)|].
  split.
  { apply Hnone. intros c [<-|[<-|[]]]; discriminate. }
  split; [exact Hnd|]. split.
  - exact (Hshown travel Hnd (or_introl eq_refl) eq_refl).
  - apply Huser. simpl. intuition discriminate.
Defined.

(** ** Visibility over time *)

Lemma visible_later (db : DB) (now now' : datetime) (V : RequestUser)
  (post : Post.t) :
  datetime_leb now now' = true ->
  visible db now post V = true -> visible db now' post V = true.
Proof.
  intros Hlater. unfold visible. rewrite !orb_true_iff, !andb_true_iff.
  intros [H|[[Hp Hc] Hd]]; [now left|right].
  repeat split; try assumption.
  now apply (datetime_leb_trans _ now).
Qed.

Lemma post_detail_shows (db : DB) (now : datetime) (request : HttpRequest.t)
  (post : Post.t) :
  NoDup (map Post.pk (posts db)) -> In post (posts db) ->
  visible db now post (HttpRequest.user request) = true ->
  post_detail db now request (Post.pk post)
  = render "blog/detail.html"
      (DetailContext.mk post
         (filter (fun c => Comment.post_id c =? Post.pk post) (comments db))
         (if is_authenticated (HttpRequest.user request)
          then Some CommentForm_unbound else None)
         now).
Proof.
  intros Hnd Hin Hvis. unfold post_detail.
  rewrite <- (post_detail_filter db now (HttpRequest.user request) post)
    in Hvis.
  destruct (is_authenticated (HttpRequest.user request));
    rewrite filter_filter_comm,
            (filter_key_unique Post.pk (posts db) post Hnd Hin);
    cbn [filter]; rewrite Hvis; reflexivity.
Qed.

Lemma post_detail_rendered (db : DB) (now : datetime)
  (request : HttpRequest.t) (post_id : Z) (template : string)
  (context : DetailContext.t) :
  post_detail db now request post_id = render template context ->
  In (DetailContext.post context) (posts db)
  /\ Post.pk (DetailContext.post context) = post_id
  /\ visible db now (DetailContext.post context) (HttpRequest.user request)
     = true
  /\ template = "blog/detail.html"
  /\ DetailContext.comments context
     = filter (fun c => Comment.post_id c
                        =? Post.pk (DetailContext.post context))
              (comments db)
  /\ DetailContext.form context
     = if is_authenticated (HttpRequest.user request)
       then Some CommentForm_unbound else None.
Proof.
  unfold post_detail.
  destruct (get_object_or_404 _) as [response|post] eqn:Hget.
  { intros ->. apply get_object_or_404_inl in Hget as [H|H]; discriminate. }
  intros H. injection H as <- <-.
  cbn [DetailContext.post DetailContext.comments DetailContext.form].
  apply get_object_or_404_inr in Hget.
  assert (In post [post]) as Hin by now left.
  rewrite <- Hget in Hin. apply filter_In in Hin as [Hin Hpk].
  apply Z.eqb_eq in Hpk.
  rewrite <- (post_detail_filter db now (HttpRequest.user request) post).
  destruct (is_authenticated (HttpRequest.user request));
    apply filter_In in Hin as [Hin Hvis]; auto 10.
Qed.

(** X5. Time only opens posts up: with the store unchanged, a post the home
    page lists at some instant is listed at every later instant, and a post
    whose detail page is shown to a viewer at some instant is shown to that
    viewer, with the same comments, at every later instant. *)
Theorem shown_posts_stay_shown (db : DB) (now now' : datetime)
  (request : HttpRequest.t) :
  datetime_leb now now' = true ->
  (forall template context,
      index db now request = render template context ->
      exists context',
        index db now' request = render template context'
        /\ forall post,
             In post (map fst (listing (IndexContext.page_obj context))) ->
             In post (map fst (listing (IndexContext.page_obj context'))))
  /\ (NoDup (map Post.pk (posts db)) ->
      forall post_id template context,
        post_detail db now request post_id = render template context ->
        post_detail db now' request post_id
        = render template
            (DetailContext.mk (DetailContext.post context)
                              (DetailContext.comments context)
                              (DetailContext.form context) now')).
Proof.
  intros Hlater. split.
  - intros template context. unfold index.
    destruct (Paginator_get_page _ _) as [page_obj|e] eqn:E; [|discriminate].
    intros H. injection H as <- <-.
    destruct (Paginator_get_page
                (Paginator.new
                   (order_by row_newest_first
                      (annotate_comment_count db
                         (filter (fun p => pub_date__lte now' p
                                           && Post.is_published p
                                           && category__is_published db p)
                                 (posts db)))) 10)
                (page_number request)) as [page_obj'|e] eqn:E';
      [|rewrite get_page_returns in E'; discriminate].
    eexists. split; [reflexivity|]. cbn [IndexContext.page_obj].
    rewrite (listing_of_rows _ _ E), (listing_of_rows _ _ E').
    intros post. rewrite !In_ordered_annotated, !filter_In.
    unfold pub_date__lte. rewrite !andb_true_iff.
    intros [Hin [[Hd Hp] Hc]]. repeat split; try assumption.
    now apply (datetime_leb_trans _ now).
  - intros Hnd post_id template context Hshown.
    pose proof (post_detail_rendered _ _ _ _ Hshown)
      as (Hin & Hpk & Hvis & -> & -> & ->).
    eapply visible_later in Hvis; [|exact Hlater].
    eapply post_detail_shows in Hvis; [|exact Hnd|exact Hin].
    rewrite <- Hpk. exact Hvis.
Qed.

(** ** Requests that change nothing *)

Section StoreUntouched.
Variable category_required location_required default_is_published : bool.
Variable clean_content : QueryDict -> FormErrors + PostContent.t.
Variable clean_profile :
  list User.t -> User.t -> QueryDict
  -> FormErrors + (string * string * string * string).
Variable now : datetime.

(** X6. No view changes the store on a GET, and none changes it for an
    anonymous requester, whatever the method and the submitted data. *)
Theorem reads_and_strangers_leave_the_store (db : DB)
  (request : HttpRequest.t) (post_id comment_id : Z) :
  HttpRequest.method request = GET
  \/ HttpRequest.user request = AnonymousUser ->
  fst (add_comment post_id db request) = db
  /\ fst (PostCreateView category_required location_required clean_content
                         default_is_published now db request) = db
  /\ fst (PostUpdateView category_required location_required clean_content
                         now post_id db request) = db
  /\ fst (PostDeleteView now post_id db request) = db
  /\ fst (CommentUpdateView post_id comment_id db request) = db
  /\ fst (CommentDeleteView post_id comment_id db request) = db
  /\ fst (ProfileUpdateView clean_profile db request) = db.
Proof.
  intros Hquiet.
  unfold add_comment, login_required, PostCreateView, PostUpdateView,
         PostDeleteView, CommentUpdateView, CommentDeleteView,
         ProfileUpdateView, LoginRequiredMixin, AuthorRequiredMixin,
         UserPassesTestMixin, test_func, PostUpdateView_handle,
         PostDeleteView_handle, CommentUpdateView_handle,
         CommentDeleteView_handle, get_post, get_comment, get_object_or_404.
  destruct Hquiet as [-> | ->].
  - destruct (HttpRequest.user request) as [|u]; cbn [is_authenticated negb fst];
      [repeat split|].
    destruct (get (filter (fun p => Post.pk p =? post_id) (posts db)))
      as [post| |];
      destruct (get (filter (fun c => Comment.pk c =? comment_id)
                            (comments db)))
        as [comment| |];
      repeat match goal with
             | |- context [user_is ?a ?b] => destruct (user_is a b)
             end;
      repeat split.
  - cbn [is_authenticated negb fst]. repeat split.
Qed.

End StoreUntouched.

(** ** What editing a post can change *)

Lemma PostForm_clean_keeps (category_required location_required : bool)
  (clean_content : QueryDict -> FormErrors + PostContent.t)
  (form : PostForm.t) (data : QueryDict) (object saved : Post.t) :
  PostForm_clean category_required location_required clean_content
                 form data object = inr saved ->
  Post.pk saved = Post.pk object
  /\ Post.author_id saved = Post.author_id object
  /\ Post.is_published saved = Post.is_published object.
Proof.
  unfold PostForm_clean.
  destruct (clean_content data),
           (PostForm_clean_location location_required form data),
           (PostForm_clean_category category_required form data);
    intros H; inversion H; subst; auto.
Qed.

Lemma map_saved (A B : Type) (key : A -> Z) (f : A -> B) (l : list A)
  (a : A) :
  (forall q, In q l -> key q = key a -> f a = f q) ->
  map f (map (fun q => if key q =? key a then a else q) l) = map f l.
Proof.
  intros H. rewrite map_map. apply map_ext_in. intros q Hq.
  destruct (key q =? key a) eqn:E; [|reflexivity].
  apply Z.eqb_eq in E. now apply H.
Qed.

Lemma got_only (A : Type) (key : A -> Z) (l : list A) (k : Z) (a q : A) :
  get (filter (fun b => key b =? k) l) = Got a ->
  In q l -> key q = k -> q = a.
Proof.
  intros Hget Hq Hk. apply get_Got in Hget.
  assert (In q (filter (fun b => key b =? k) l)) as H
    by (apply filter_In; split; [assumption|now apply Z.eqb_eq]).
  rewrite Hget in H. destruct H as [H|[]]. now symmetry.
Qed.

Lemma PostUpdateView_frame
  (category_required location_required : bool)
  (clean_content : QueryDict -> FormErrors + PostContent.t) (now : datetime)
  (post_id : Z) (db : DB) (request : HttpRequest.t) :
  let db' := fst (PostUpdateView category_required location_required
                                 clean_content now post_id db request) in
  users db' = users db /\ categories db' = categories db
  /\ locations db' = locations db /\ comments db' = comments db
  /\ map Post.pk (posts db') = map Post.pk (posts db)
  /\ map Post.author_id (posts db') = map Post.author_id (posts db)
  /\ map Post.is_published (posts db') = map Post.is_published (posts db)
  /\ (forall q, In q (posts db) -> Post.pk q <> post_id -> In q (posts db')).
Proof.
  cbv zeta.
  unfold PostUpdateView, LoginRequiredMixin, AuthorRequiredMixin,
         UserPassesTestMixin, test_func, PostUpdateView_handle, get_post,
         get_object_or_404.
  destruct (is_authenticated (HttpRequest.user request)); cbn [negb fst];
    [|auto 10].
  destruct (get (filter (fun p => Post.pk p =? post_id) (posts db)))
    as [object| |] eqn:Hget; cbn [fst]; [|auto 10|auto 10].
  destruct (user_is _ _); cbn [fst]; [|auto 10].
  destruct (HttpRequest.method request); cbn [fst]; [auto 10|].
  destruct (PostForm_clean _ _ _ _ _ _) as [errors|saved] eqn:Hclean;
    cbn [fst]; [auto 10|].
  apply PostForm_clean_keeps in Hclean as (Hpk & Hauthor & Hpub).
  assert (Post.pk object = post_id) as Hid.
  { apply get_Got in Hget. assert (In object [object]) as H by now left.
    rewrite <- Hget in H. apply filter_In in H as [_ H].
    now apply Z.eqb_eq. }
  cbn [save_post users categories locations comments posts].
  repeat match goal with |- _ /\ _ => split end; try reflexivity.
  - apply map_saved. intros q _ Heq. now symmetry.
  - apply map_saved. intros q Hq Heq.
    rewrite (got_only Post.pk (posts db) q Hget Hq); [assumption|].
    congruence.
  - apply map_saved. intros q Hq Heq.
    rewrite (got_only Post.pk (posts db) q Hget Hq); [assumption|].
    congruence.
  - intros q Hq Hne. apply in_map_iff. exists q. split; [|assumption].
    destruct (Post.pk q =? Post.pk saved) eqn:E; [|reflexivity].
    apply Z.eqb_eq in E. congruence.
Qed.

(** X7. Whatever is posted to the edit view of a post, and by whomever, the
    store afterwards has the same users, categories, locations and comments,
    and the same posts in the same places with the same keys, authors and
    published flags; posts with another key are not touched at all. *)
Theorem post_edit_changes_content_only
  (category_required location_required : bool)
  (clean_content : QueryDict -> FormErrors + PostContent.t) (now : datetime)
  (post_id : Z) (db : DB) (request : HttpRequest.t) :
  let db' := fst (PostUpdateView category_required location_required
                                 clean_content now post_id db request) in
  users db' = users db /\ categories db' = categories db
  /\ locations db' = locations db /\ comments db' = comments db
  /\ map Post.pk (posts db') = map Post.pk (posts db)
  /\ map Post.author_id (posts db') = map Post.author_id (posts db)
  /\ map Post.is_published (posts db') = map Post.is_published (posts db)
  /\ (forall q, In q (posts db) -> Post.pk q <> post_id -> In q (posts db')).
Proof.
  apply PostUpdateView_frame.
Qed.

(** ** Deleting and editing a post, then looking at it *)

Lemma author_passes (A C : Type) (table : DB -> list A) (pk author_id : A -> Z)
  (handle : View C) (db : DB) (request : HttpRequest.t) (a : A) :
  NoDup (map pk (table db)) -> In a (table db) ->
  user_is (HttpRequest.user request) (author_id a) = true ->
  LoginRequiredMixin
    (AuthorRequiredMixin
       (fun db => get_object_or_404
                    (filter (fun b => pk b =? pk a) (table db)))
       author_id handle) db request
  = handle db request.
Proof.
  intros Hnd Hin Hauthor.
  unfold LoginRequiredMixin, AuthorRequiredMixin, UserPassesTestMixin,
         test_func.
  rewrite (filter_key_unique pk (table db) a Hnd Hin).
  cbn [get_object_or_404 get]. rewrite Hauthor.
  destruct (HttpRequest.user request); [discriminate Hauthor|reflexivity].
Qed.

(** X8. When its author confirms the deletion of a post, the post and only
    that post leaves the posts table, the author is sent to the home page,
    and from then on the post's detail page answers not-found to every
    viewer at every instant, the author included. *)
Theorem deleted_post_is_gone (now : datetime) (db : DB)
  (request : HttpRequest.t) (post : Post.t) :
  NoDup (map Post.pk (posts db)) -> In post (posts db) ->
  user_is (HttpRequest.user request) (Post.author_id post) = true ->
  HttpRequest.method request = POST ->
  exists db',
    PostDeleteView now (Post.pk post) db request = (db', redirect blog_index)
    /\ (forall q, In q (posts db') <-> In q (posts db) /\ q <> post)
    /\ users db' = users db /\ categories db' = categories db
    /\ locations db' = locations db
    /\ forall now' request',
         post_detail db' now' request' (Post.pk post) = Http404.
Proof.
  intros Hnd Hin Hauthor Hmethod.
  unfold PostDeleteView, get_post.
  rewrite (author_passes posts Post.pk Post.author_id _ db request post
                         Hnd Hin Hauthor).
  unfold PostDeleteView_handle, get_post.
  rewrite (filter_key_unique Post.pk (posts db) post Hnd Hin).
  cbn [get_object_or_404 get]. rewrite Hmethod.
  eexists. split; [reflexivity|].
  cbn [delete_post posts users categories locations].
  split; [|split; [reflexivity|split; [reflexivity|split; [reflexivity|]]]].
  - intros q. rewrite filter_In. split; intros [Hq Hne]; (split; [assumption|]).
    + intros ->. rewrite Z.eqb_refl in Hne. discriminate Hne.
    + apply negb_true_iff, Z.eqb_neq. intros Heq. apply Hne.
      exact (key_injective Post.pk (posts db) post q Hnd Hin Hq Heq).
  - intros now' request'. unfold post_detail.
    cbn [posts].
    assert (forall f : Post.t -> bool,
               filter (fun p => Post.pk p =? Post.pk post)
                 (filter f
                    (filter (fun q => negb (Post.pk q =? Post.pk post))
                            (posts db))) = []) as Hgone.
    { intros f. apply filter_none. intros q Hq.
      apply filter_In in Hq as [Hq _]. apply filter_In in Hq as [_ Hq].
      now apply negb_true_iff in Hq. }
    destruct (is_authenticated (HttpRequest.user request'));
      rewrite Hgone; reflexivity.
Qed.

(** X9. When its author saves a valid edit of a post, the author is sent to
    the post's detail page, and that page then shows the author the post as
    saved, with the post's comments, whether or not the saved post is
    published or already due. *)
Theorem edited_post_is_shown_to_author
  (category_required location_required : bool)
  (clean_content : QueryDict -> FormErrors + PostContent.t) (now : datetime)
  (db : DB) (request : HttpRequest.t) (post saved : Post.t) :
  NoDup (map Post.pk (posts db)) -> In post (posts db) ->
  user_is (HttpRequest.user request) (Post.author_id post) = true ->
  HttpRequest.method request = POST ->
  PostForm_clean category_required location_required clean_content
    (PostForm_init db now (Some (HttpRequest.POST request)) (Some post))
    (HttpRequest.POST request) post = inr saved ->
  exists db',
    PostUpdateView category_required location_required clean_content now
                   (Post.pk post) db request
    = (db', redirect (blog_post_detail (Post.pk post)))
    /\ In saved (posts db')
    /\ forall now',
         post_detail db' now' request (Post.pk post)
         = render "blog/detail.html"
             (DetailContext.mk saved
                (filter (fun c => Comment.post_id c =? Post.pk post)
                        (comments db))
                (Some CommentForm_unbound) now').
Proof.
  intros Hnd Hin Hauthor Hmethod Hclean.
  pose proof (PostForm_clean_keeps _ _ _ _ _ _ Hclean) as (Hpk & Hown & _).
  unfold PostUpdateView, get_post.
  rewrite (author_passes posts Post.pk Post.author_id _ db request post
                         Hnd Hin Hauthor).
  unfold PostUpdateView_handle, get_post.
  rewrite (filter_key_unique Post.pk (posts db) post Hnd Hin).
  cbn [get_object_or_404 get]. rewrite Hmethod, Hclean, Hpk.
  eexists. split; [reflexivity|].
  assert (In saved (posts (save_post db saved))) as Hsaved.
  { cbn [save_post posts]. apply in_map_iff. exists post.
    split; [|assumption]. rewrite Hpk, Z.eqb_refl. reflexivity. }
  assert (NoDup (map Post.pk (posts (save_post db saved)))) as Hnd'.
  { cbn [save_post posts]. rewrite map_saved; [assumption|].
    intros q _ Heq. now symmetry. }
  split; [exact Hsaved|]. intros now'.
  assert (visible (save_post db saved) now' saved (HttpRequest.user request)
          = true) as Hvis.
  { unfold visible. destruct (HttpRequest.user request) as [|u];
      [discriminate Hauthor|].
    simpl in Hauthor. rewrite Hown, Hauthor. reflexivity. }
  rewrite <- Hpk.
  erewrite post_detail_shows; [|exact Hnd'|exact Hsaved|exact Hvis].
  destruct (HttpRequest.user request); [discriminate Hauthor|reflexivity].
Qed.

(** ** Keys stay unique *)

Lemma next_pk_fresh (pks : list Z) : ~ In (next_pk pks) pks.
Proof.
  assert (forall l k, In k l -> k <= fold_right Z.max 0 l) as Hmax.
  { induction l as [|x l IH]; simpl; intros k Hk; [contradiction|].
    destruct Hk as [->|Hk]; [lia|]. specialize (IH k Hk). lia. }
  unfold next_pk. intros H. apply Hmax in H. lia.
Qed.

Lemma NoDup_snoc (A : Type) (l : list A) (a : A) :
  NoDup l -> ~ In a l -> NoDup (l ++ [a]).
Proof.
  intros Hnd Hnotin. apply NoDup_app; repeat split.
  - assumption.
  - repeat constructor. intros [].
  - intros b Hb [<-|[]]. contradiction.
Qed.

Lemma NoDup_map_filter (A B : Type) (f : A -> B) (g : A -> bool)
  (l : list A) :
  NoDup (map f l) -> NoDup (map f (filter g l)).
Proof.
  induction l as [|a l IH]; simpl; intros Hnd; [constructor|].
  inversion Hnd as [|? ? Hnotin Hnd']; subst.
  destruct (g a); simpl; [|now apply IH].
  constructor; [|now apply IH].
  intros Hin. apply Hnotin. apply in_map_iff in Hin as [b [Heq Hb]].
  apply filter_In in Hb as [Hb _]. rewrite <- Heq. now apply in_map.
Qed.

Section KeysUnique.
Variable category_required location_required default_is_published : bool.
Variable clean_content : QueryDict -> FormErrors + PostContent.t.
Variable clean_profile :
  list User.t -> User.t -> QueryDict
  -> FormErrors + (string * string * string * string).
Variable UserCreationForm_clean :
  list User.t -> RegistrationData.t -> FormErrors + (string * string).
Variable validate_email : string -> bool.
Variable now : datetime.

(** X10. Every operation that writes to the store keeps the primary keys of
    every table pairwise distinct: adding, editing and deleting a comment,
    creating, editing and deleting a post, editing the profile and
    registering, for any request and any submitted data. *)
Theorem writes_keep_keys_unique (db : DB) (request : HttpRequest.t)
  (post_id comment_id : Z) (data : RegistrationData.t) :
  keys_unique db ->
  keys_unique (fst (add_comment post_id db request))
  /\ keys_unique (fst (CommentUpdateView post_id comment_id db request))
  /\ keys_unique (fst (CommentDeleteView post_id comment_id db request))
  /\ keys_unique (fst (PostCreateView category_required location_required
                                      clean_content default_is_published now
                                      db request))
  /\ keys_unique (fst (PostUpdateView category_required location_required
                                      clean_content now post_id db request))
  /\ keys_unique (fst (PostDeleteView now post_id db request))
  /\ keys_unique (fst (ProfileUpdateView clean_profile db request))
  /\ keys_unique (fst (CustomUserCreationForm_save UserCreationForm_clean
                                                   validate_email db data)).
Proof.
  intros Hok. pose proof Hok as (Hu & Hc & Hl & Hp & Hm).
  repeat match goal with |- _ /\ _ => split end.
  - unfold add_comment, login_required, get_object_or_404.
    destruct (is_authenticated _); [|exact Hok].
    destruct (get _) as [post| |]; try exact Hok.
    destruct (HttpRequest.method request); [exact Hok|].
    destruct (HttpRequest.user request) as [|u]; [exact Hok|].
    destruct (CommentForm_clean _) as [errors|text]; [exact Hok|].
    unfold keys_unique. cbn [fst insert_comment users categories locations
                             posts comments].
    repeat split; try assumption.
    rewrite map_app. apply NoDup_snoc; [assumption|apply next_pk_fresh].
  - unfold CommentUpdateView, LoginRequiredMixin, AuthorRequiredMixin,
           UserPassesTestMixin, test_func, CommentUpdateView_handle,
           get_comment, get_object_or_404.
    destruct (is_authenticated _); cbn [negb]; [|exact Hok].
    destruct (get _) as [object| |]; try exact Hok.
    destruct (user_is _ _); [|exact Hok].
    destruct (HttpRequest.method request); [exact Hok|].
    destruct (CommentForm_clean _) as [errors|text]; [exact Hok|].
    unfold keys_unique. cbn [fst save_comment users categories locations
                             posts comments].
    repeat split; try assumption.
    rewrite map_saved; [assumption|]. intros q _ Heq. now symmetry.
  - unfold CommentDeleteView, LoginRequiredMixin, AuthorRequiredMixin,
           UserPassesTestMixin, test_func, CommentDeleteView_handle,
           get_comment, get_object_or_404.
    destruct (is_authenticated _); cbn [negb]; [|exact Hok].
    destruct (get _) as [object| |]; try exact Hok.
    destruct (user_is _ _); [|exact Hok].
    destruct (HttpRequest.method request); [exact Hok|].
    unfold keys_unique. cbn [fst delete_comment users categories locations
                             posts comments].
    repeat split; try assumption. now apply NoDup_map_filter.
  - unfold PostCreateView.
    destruct (HttpRequest.user request) as [|u]; [exact Hok|].
    destruct (HttpRequest.method request); [exact Hok|].
    destruct (PostForm_clean _ _ _ _ _ _) as [errors|post] eqn:Hclean;
      [exact Hok|].
    apply PostForm_clean_keeps in Hclean as (Hpk & _).
    unfold keys_unique. cbn [fst insert_post users categories locations
                             posts comments Post.pk] in *.
    repeat split; try assumption.
    rewrite map_app. apply NoDup_snoc; [assumption|].
    cbn [map]. rewrite Hpk. apply next_pk_fresh.
  - unfold PostUpdateView, LoginRequiredMixin, AuthorRequiredMixin,
           UserPassesTestMixin, test_func, PostUpdateView_handle, get_post,
           get_object_or_404.
    destruct (is_authenticated _); cbn [negb]; [|exact Hok].
    destruct (get _) as [object| |]; try exact Hok.
    destruct (user_is _ _); [|exact Hok].
    destruct (HttpRequest.method request); [exact Hok|].
    destruct (PostForm_clean _ _ _ _ _ _) as [errors|post]; [exact Hok|].
    unfold keys_unique. cbn [fst save_post users categories locations
                             posts comments].
    repeat split; try assumption.
    rewrite map_saved; [assumption|]. intros q _ Heq. now symmetry.
  - unfold PostDeleteView, LoginRequiredMixin, AuthorRequiredMixin,
           UserPassesTestMixin, test_func, PostDeleteView_handle, get_post,
           get_object_or_404.
    destruct (is_authenticated _); cbn [negb]; [|exact Hok].
    destruct (get _) as [object| |]; try exact Hok.
    destruct (user_is _ _); [|exact Hok].
    destruct (HttpRequest.method request); [exact Hok|].
    unfold keys_unique. cbn [fst delete_post users categories locations
                             posts comments].
    repeat split; try assumption; now apply NoDup_map_filter.
  - unfold ProfileUpdateView.
    destruct (HttpRequest.user request) as [|u]; [exact Hok|].
    destruct (HttpRequest.method request); [exact Hok|].
    destruct (clean_profile _ _ _) as [errors|[[[first last] name] mail]];
      [exact Hok|].
    unfold keys_unique. cbn [fst save_user users categories locations
                             posts comments].
    repeat split; try assumption.
    rewrite map_saved; [assumption|]. intros q _ Heq. now symmetry.
  - unfold CustomUserCreationForm_save.
    destruct (UserCreationForm_clean _ _) as [|[username password]];
      [exact Hok|].
    destruct (email_cleaned _ _ _); [exact Hok|].
    destruct (first_name_cleaned _); [exact Hok|].
    destruct (last_name_cleaned _); [exact Hok|].
    unfold keys_unique. cbn [fst users categories locations posts comments].
    repeat split; try assumption.
    rewrite map_app. apply NoDup_snoc; [assumption|apply next_pk_fresh].
Qed.

End KeysUnique.

(** ** Registering, then visiting the profile *)

Section RegistrationInvariants.
Variable UserCreationForm_clean :
  list User.t -> RegistrationData.t -> FormErrors + (string * string).
Variable validate_email : string -> bool.

Let save := CustomUserCreationForm_save UserCreationForm_clean validate_email.

(** X11. Registration keeps the stored emails pairwise distinct: if no two
    stored users share an email before a registration, none do after it,
    whether it succeeds or fails. *)
Theorem registration_keeps_emails_distinct (db : DB)
  (data : RegistrationData.t) :
  NoDup (map User.email (users db)) ->
  NoDup (map User.email (users (fst (save db data)))).
Proof.
  intros Hnd. subst save. unfold CustomUserCreationForm_save, email_cleaned.
  destruct (UserCreationForm_clean _ _) as [|[username password]];
    [exact Hnd|].
  destruct (EmailField_clean _ _) as [|email]; [exact Hnd|].
  unfold clean_email. destruct (existsb _ _) eqn:Hex; [exact Hnd|].
  destruct (first_name_cleaned _); [exact Hnd|].
  destruct (last_name_cleaned _); [exact Hnd|].
  cbn [fst users]. rewrite map_app. apply NoDup_snoc; [assumption|].
  cbn [map User.email]. intros Hin. apply existsb_email in Hin. congruence.
Qed.

(** X12. After a successful registration under a username no stored user
    has, the profile page of that username exists and shows the user just
    stored, to every viewer. *)
Theorem registered_user_has_a_profile (db db' : DB)
  (data : RegistrationData.t) (user : User.t) :
  NoDup (map User.username (users db)) ->
  save db data = (db', Return user) ->
  ~ In (User.username user) (map User.username (users db)) ->
  forall now request,
  exists page_obj,
    ProfileView db' now request (User.username user)
    = render "blog/profile.html" (ProfileContext.mk user page_obj).
Proof.
  intros Hnd Hsave Hfresh now request.
  assert (users db' = (users db ++ [user])%list) as Husers.
  { revert Hsave. subst save. unfold CustomUserCreationForm_save.
    destruct (UserCreationForm_clean _ _) as [|[username password]];
      [discriminate|].
    destruct (email_cleaned _ _ _); [discriminate|].
    destruct (first_name_cleaned _); [discriminate|].
    destruct (last_name_cleaned _); [discriminate|].
    intros H. injection H as <- <-. reflexivity. }
  unfold ProfileView. rewrite Husers.
  rewrite (filter_name_unique User.username (users db ++ [user]) user).
  - cbn [get_object_or_404 get]. rewrite get_page_returns.
    eexists. reflexivity.
  - rewrite map_app. now apply NoDup_snoc.
  - apply in_or_app. right. now left.
Qed.

End RegistrationInvariants.

(** ** Adding a comment, then looking at the post *)



(** ** What editing and deleting a comment can change *)

Lemma got_comment_id (comment_id : Z) (l : list Comment.t) (c : Comment.t) :
  get (filter (fun b => Comment.pk b =? comment_id) l) = Got c ->
  In c l /\ Comment.pk c = comment_id.
Proof.
  intros Hget. apply get_Got in Hget.
  assert (In c [c]) as H by now left.
  rewrite <- Hget in H. apply filter_In in H as [H1 H2].
  split; [assumption|now apply Z.eqb_eq].
Qed.

Lemma CommentUpdateView_frame (post_id comment_id : Z) (db : DB)
  (request : HttpRequest.t) :
  let db' := fst (CommentUpdateView post_id comment_id db request) in
  users db' = users db /\ categories db' = categories db
  /\ locations db' = locations db /\ posts db' = posts db
  /\ map Comment.pk (comments db') = map Comment.pk (comments db)
  /\ map Comment.post_id (comments db') = map Comment.post_id (comments db)
  /\ map Comment.author_id (comments db')
     = map Comment.author_id (comments db)
  /\ (forall c, In c (comments db) -> Comment.pk c <> comment_id ->
                In c (comments db'))
  /\ (forall p, comment_count db' p = comment_count db p).
Proof.
  cbv zeta.
  assert (forall db' : DB,
             posts db' = posts db ->
             map Comment.post_id (comments db')
             = map Comment.post_id (comments db) ->
             forall p, comment_count db' p = comment_count db p) as Hcount.
  { intros db' _ Hposts p. unfold comment_count. f_equal.
    transitivity (List.length (filter (fun k => k =? Post.pk p)
                                      (map Comment.post_id (comments db')))).
    - clear. induction (comments db') as [|c l IH]; simpl; [reflexivity|].
      destruct (Comment.post_id c =? Post.pk p); simpl; now rewrite IH.
    - rewrite Hposts. clear.
      induction (comments db) as [|c l IH]; simpl; [reflexivity|].
      destruct (Comment.post_id c =? Post.pk p); simpl; now rewrite IH. }
  unfold CommentUpdateView, LoginRequiredMixin, AuthorRequiredMixin,
         UserPassesTestMixin, test_func, CommentUpdateView_handle,
         get_comment, get_object_or_404.
  destruct (is_authenticated (HttpRequest.user request)); cbn [negb fst];
    [|auto 10].
  destruct (get (filter (fun c => Comment.pk c =? comment_id) (comments db)))
    as [object| |] eqn:Hget; cbn [fst]; [|auto 10|auto 10].
  destruct (user_is _ _); cbn [fst]; [|auto 10].
  destruct (HttpRequest.method request); cbn [fst]; [auto 10|].
  destruct (CommentForm_clean _) as [errors|text]; cbn [fst]; [auto 10|].
  pose proof (got_comment_id _ _ Hget) as [Hin Hid].
  set (saved := Comment.mk (Comment.pk object) text (Comment.post_id object)
                           (Comment.author_id object)).
  assert (map Comment.post_id (comments (save_comment db saved))
          = map Comment.post_id (comments db)) as Hpost.
  { cbn [save_comment comments]. apply map_saved. intros q Hq Heq.
    rewrite (got_only Comment.pk (comments db) q Hget Hq); [reflexivity|].
    cbn [saved Comment.pk] in Heq. congruence. }
  repeat match goal with |- _ /\ _ => split end; try reflexivity.
  - cbn [save_comment comments]. apply map_saved. intros q _ Heq.
    now symmetry.
  - exact Hpost.
  - cbn [save_comment comments]. apply map_saved. intros q Hq Heq.
    rewrite (got_only Comment.pk (comments db) q Hget Hq); [reflexivity|].
    cbn [saved Comment.pk] in Heq. congruence.
  - intros c Hc Hne. cbn [save_comment comments]. apply in_map_iff.
    exists c. split; [|assumption].
    destruct (Comment.pk c =? Comment.pk saved) eqn:E; [|reflexivity].
    apply Z.eqb_eq in E. cbn [saved Comment.pk] in E. congruence.
  - apply Hcount; [reflexivity|exact Hpost].
Qed.

(** X14. Whatever is posted to the edit view of a comment, and by whomever,
    the store afterwards has the same users, categories, locations and
    posts, and the same comments in the same places with the same keys,
    posts and authors: only a text can change, and every post keeps its
    comment count. *)
Theorem comment_edit_changes_text_only (post_id comment_id : Z) (db : DB)
  (request : HttpRequest.t) :
  let db' := fst (CommentUpdateView post_id comment_id db request) in
  users db' = users db /\ categories db' = categories db
  /\ locations db' = locations db /\ posts db' = posts db
  /\ map Comment.pk (comments db') = map Comment.pk (comments db)
  /\ map Comment.post_id (comments db') = map Comment.post_id (comments db)
  /\ map Comment.author_id (comments db')
     = map Comment.author_id (comments db)
  /\ (forall c, In c (comments db) -> Comment.pk c <> comment_id ->
                In c (comments db'))
  /\ (forall p, comment_count db' p = comment_count db p).
Proof.
  apply CommentUpdateView_frame.
Qed.

Lemma removed_row_perm (A : Type) (key : A -> Z) (l : list A) (a : A) :
  NoDup (map key l) -> In a l ->
  Permutation l (a :: filter (fun q => negb (key q =? key a)) l).
Proof.
  induction l as [|b l IH]; simpl; intros Hnd Hin; [contradiction|].
  inversion Hnd as [|? ? Hnotin Hnd']; subst.
  destruct Hin as [->|Hin].
  - rewrite Z.eqb_refl. simpl. constructor.
    rewrite (filter_ext_in _ (fun _ => true)).
    + clear. induction l as [|x l IH]; simpl; [constructor|now constructor].
    + intros q Hq. apply negb_true_iff, Z.eqb_neq. intros Heq.
      apply Hnotin. rewrite <- Heq. now apply in_map.
  - assert (key b <> key a) as Hne.
    { intros Heq. apply Hnotin. rewrite Heq. now apply in_map. }
    apply Z.eqb_neq in Hne. rewrite Hne. simpl.
    transitivity (b :: a :: filter (fun q => negb (key q =? key a)) l);
      [constructor; now apply IH|apply perm_swap].
Qed.

(** X15. When its author confirms the deletion of a comment, that comment
    and only that comment leaves the store: the posts are as before, the
    comment count of the post it was on drops by one, and every other
    post's count is unchanged. *)
Theorem deleted_comment_lowers_the_count (db : DB) (request : HttpRequest.t)
  (comment : Comment.t) (post_id : Z) :
  NoDup (map Comment.pk (comments db)) -> In comment (comments db) ->
  user_is (HttpRequest.user request) (Comment.author_id comment) = true ->
  HttpRequest.method request = POST ->
  exists db',
    CommentDeleteView post_id (Comment.pk comment) db request
    = (db', redirect (blog_post_detail post_id))
    /\ posts db' = posts db /\ users db' = users db
    /\ Permutation (comments db) (comment :: comments db')
    /\ forall p,
         comment_count db p
         = comment_count db' p
           + (if Comment.post_id comment =? Post.pk p then 1 else 0).
Proof.
  intros Hnd Hin Hauthor Hmethod.
  unfold CommentDeleteView, get_comment.
  rewrite (author_passes comments Comment.pk Comment.author_id _ db request
                         comment Hnd Hin Hauthor).
  unfold CommentDeleteView_handle, get_comment.
  rewrite (filter_key_unique Comment.pk (comments db) comment Hnd Hin).
  cbn [get_object_or_404 get]. rewrite Hmethod.
  eexists. split; [reflexivity|].
  cbn [delete_comment posts users comments].
  pose proof (removed_row_perm Comment.pk (comments db) comment Hnd Hin)
    as Hperm.
  repeat split; try assumption.
  intros p. unfold comment_count. cbn [comments].
  rewrite (Permutation_length
             (Permutation_filter
                (fun c => Comment.post_id c =? Post.pk p) Hperm)).
  cbn [filter]. destruct (Comment.post_id comment =? Post.pk p);
    cbn [List.length delete_comment comments]; lia.
Qed.

(** ** Stored comments have a text *)

Lemma CommentForm_clean_nonblank (data : QueryDict) (text : string) :
  CommentForm_clean data = inr text -> text <> "".
Proof.
  unfold CommentForm_clean, CharField_clean.
  set (v := Py.strip _).
  destruct (String.eqb v "") eqn:Hempty; [discriminate|].
  apply String.eqb_neq in Hempty.
  destruct (has_null v); cbn [app]; intros H; inversion H; subst; assumption.
Qed.

(** X16. Neither adding nor editing a comment ever stores an empty text: if
    every stored comment has a non-empty text before the request, every
    stored comment has one after it. *)
Theorem comment_text_never_blank (post_id comment_id : Z) (db : DB)
  (request : HttpRequest.t) :
  (forall c, In c (comments db) -> Comment.text c <> "") ->
  (forall c, In c (comments (fst (add_comment post_id db request))) ->
             Comment.text c <> "")
  /\ (forall c,
        In c (comments (fst (CommentUpdateView post_id comment_id db request))) ->
        Comment.text c <> "").
Proof.
  intros Hinv. split.
  - unfold add_comment, login_required, get_object_or_404.
    destruct (is_authenticated _); [|exact Hinv].
    destruct (get _) as [post| |]; try exact Hinv.
    destruct (HttpRequest.method request); [exact Hinv|].
    destruct (HttpRequest.user request) as [|u]; [exact Hinv|].
    destruct (CommentForm_clean _) as [errors|text] eqn:Hclean; [exact Hinv|].
    cbn [fst insert_comment comments]. intros c Hc.
    apply in_app_or in Hc as [Hc|[<-|[]]]; [now apply Hinv|].
    exact (CommentForm_clean_nonblank _ Hclean).
  - unfold CommentUpdateView, LoginRequiredMixin, AuthorRequiredMixin,
           UserPassesTestMixin, test_func, CommentUpdateView_handle,
           get_comment, get_object_or_404.
    destruct (is_authenticated _); cbn [negb]; [|exact Hinv].
    destruct (get _) as [object| |]; try exact Hinv.
    destruct (user_is _ _); [|exact Hinv].
    destruct (HttpRequest.method request); [exact Hinv|].
    destruct (CommentForm_clean _) as [errors|text] eqn:Hclean; [exact Hinv|].
    cbn [fst save_comment comments]. intros c Hc.
    apply in_map_iff in Hc as [q [Hq Hin]].
    destruct (Comment.pk q =? _); subst c; [|now apply Hinv].
    exact (CommentForm_clean_nonblank _ Hclean).
Qed.

(** ** Creating a post *)

(** X17. The create view stores nothing, or exactly one new post under a
    fresh key whose author is the requester, whatever was submitted, with
    the model's default published flag; the requester is then sent to the
    own profile page, and that page lists the new post for them. *)
Theorem created_post_belongs_to_requester
  (category_required location_required default_is_published : bool)
  (clean_content : QueryDict -> FormErrors + PostContent.t) (now : datetime)
  (db db' : DB) (request : HttpRequest.t)
  (response : HttpResponse PostCreateContext.t) :
  PostCreateView category_required location_required clean_content
                 default_is_published now db request = (db', response) ->
  db' = db
  \/ exists u post,
       HttpRequest.user request = Authenticated u
       /\ HttpRequest.method request = POST
       /\ db' = insert_post db post
       /\ Post.author_id post = User.pk u
       /\ Post.is_published post = default_is_published
       /\ ~ In (Post.pk post) (map Post.pk (posts db))
       /\ response = redirect (blog_profile (User.username u))
       /\ (NoDup (map User.username (users db)) -> In u (users db) ->
           forall now',
           exists page_obj,
             ProfileView db' now' request (User.username u)
             = render "blog/profile.html" (ProfileContext.mk u page_obj)
             /\ In post (map fst (listing page_obj))).
Proof.
  unfold PostCreateView.
  destruct (HttpRequest.user request) as [|u] eqn:Huser;
    [intros H; injection H as <- _; now left|].
  destruct (HttpRequest.method request) eqn:Hmethod;
    [intros H; injection H as <- _; now left|].
  destruct (PostForm_clean _ _ _ _ _ _) as [errors|post] eqn:Hclean;
    [intros H; injection H as <- _; now left|].
  intros H. injection H as <- <-. right.
  apply PostForm_clean_keeps in Hclean as (Hpk & Hauthor & Hpub).
  cbn [Post.pk Post.author_id Post.is_published] in Hpk, Hauthor, Hpub.
  exists u, post. repeat match goal with |- _ /\ _ => split end;
    try reflexivity; try assumption.
  - rewrite Hpk. apply next_pk_fresh.
  - intros Hnd Hin now'. unfold ProfileView. cbn [insert_post users posts].
    rewrite (filter_name_unique User.username (users db) u Hnd Hin).
    cbn [get_object_or_404 get]. rewrite Huser. cbn [user_is].
    rewrite Z.eqb_refl. cbn [negb].
    rewrite get_page_returns. eexists. split; [reflexivity|].
    unfold listing. cbn [Page.paginator Paginator.new Paginator.object_list].
    apply In_ordered_annotated. apply filter_In. split.
    + apply in_or_app. right. now left.
    + rewrite Hauthor. apply Z.eqb_refl.
Qed.

(** ** Editing the profile *)

(** X18. The profile edit view can change the requester's own row only:
    posts, comments, categories and locations, the keys of the users and
    every other user's row are as before; after a valid edit the requester's
    row carries the same key and password, and the redirect goes to the
    profile page of the username just saved. *)
Theorem profile_edit_changes_own_row_only
  (clean_profile :
     list User.t -> User.t -> QueryDict
     -> FormErrors + (string * string * string * string))
  (db db' : DB) (request : HttpRequest.t)
  (response : HttpResponse UserContext.t) :
  ProfileUpdateView clean_profile db request = (db', response) ->
  posts db' = posts db /\ comments db' = comments db
  /\ categories db' = categories db /\ locations db' = locations db
  /\ map User.pk (users db') = map User.pk (users db)
  /\ (forall q, In q (users db) ->
                user_is (HttpRequest.user request) (User.pk q) = false ->
                In q (users db'))
  /\ (forall username,
        response = redirect (blog_profile username) ->
        exists u saved,
          HttpRequest.user request = Authenticated u
          /\ HttpRequest.method request = POST
          /\ db' = save_user db saved
          /\ User.pk saved = User.pk u
          /\ User.password saved = User.password u
          /\ User.username saved = username
          /\ (In u (users db) -> In saved (users db'))).
Proof.
  unfold ProfileUpdateView.
  destruct (HttpRequest.user request) as [|u] eqn:Huser.
  { intros H. injection H as <- <-. unfold handle_no_permission.
    rewrite Huser. cbn [is_authenticated].
    repeat split; auto. intros username H. discriminate H. }
  destruct (HttpRequest.method request) eqn:Hmethod.
  { intros H. injection H as <- <-.
    repeat split; auto. intros username H. discriminate H. }
  destruct (clean_profile _ _ _) as [errors|[[[first last] name] mail]].
  { intros H. injection H as <- <-.
    repeat split; auto. intros username H. discriminate H. }
  intros H. injection H as <- <-.
  cbn [save_user users posts comments categories locations User.username].
  repeat match goal with |- _ /\ _ => split end; try reflexivity.
  - apply map_saved. intros q _ Heq. now symmetry.
  - intros q Hq Hother. cbn [user_is] in Hother. apply in_map_iff.
    exists q. split; [|assumption]. cbn [User.pk].
    rewrite Z.eqb_sym in Hother. now rewrite Hother.
  - intros username H. injection H as <-.
    do 2 eexists. repeat split.
    intros Hin. cbn [save_user users]. apply in_map_iff. exists u.
    split; [|assumption]. cbn [User.pk]. now rewrite Z.eqb_refl.
Qed.

(** ** The further properties on the sample store *)

Lemma listings_complete_witness :
  exists context,
    index sample_db sample_now as_alice = render "blog/index.html" context
    /\ Permutation (map fst (listing (IndexContext.page_obj context)))
                   [shown_post].
Proof.
  eexists. split; [reflexivity|].
  exact (proj1 (@listings_complete sample_db sample_now as_alice)
               "blog/index.html" _ eq_refl).
Defined.

Lemma shown_posts_stay_shown_witness :
  datetime_leb sample_now sample_later = true
  /\ NoDup (map Post.pk (posts sample_db))
  /\ post_detail sample_db sample_now as_anonymous 1
     = render "blog/detail.html"
         (DetailContext.mk shown_post [first_comment] None sample_now)
  /\ post_detail sample_db sample_later as_anonymous 1
     = render "blog/detail.html"
         (DetailContext.mk shown_post [first_comment] None sample_later).
Proof.
  assert (NoDup (map Post.pk (posts sample_db))) as Hnd by distinct_keys.
  split; [reflexivity|]. split; [exact Hnd|]. split; [reflexivity|].
  exact (proj2 (@shown_posts_stay_shown sample_db sample_now sample_later
                                        as_anonymous eq_refl)
               Hnd 1 "blog/detail.html"
               (DetailContext.mk shown_post [first_comment] None sample_now)
               eq_refl).
Defined.

Lemma reads_and_strangers_leave_the_store_witness :
  (HttpRequest.method as_bob = GET
   \/ HttpRequest.user as_bob = AnonymousUser)
  /\ fst (PostDeleteView sample_now 3 sample_db as_bob) = sample_db
  /\ fst (add_comment 1 sample_db
             (request_of AnonymousUser POST [] [("text", "hello")]))
     = sample_db.
Proof.
  split; [left; reflexivity|]. split.
  - exact (proj1 (proj2 (proj2 (proj2
             (@reads_and_strangers_leave_the_store
                false false true sample_clean_content sample_clean_profile
                sample_now sample_db as_bob 3 1 (or_introl eq_refl)))))).
  - exact (proj1
             (@reads_and_strangers_leave_the_store
                false false true sample_clean_content sample_clean_profile
                sample_now sample_db
                (request_of AnonymousUser POST [] [("text", "hello")])
                1 1 (or_intror eq_refl))).
Defined.

Lemma deleted_post_is_gone_witness :
  NoDup (map Post.pk (posts sample_db))
  /\ In hidden_post (posts sample_db)
  /\ user_is (Authenticated bob) (Post.author_id hidden_post) = true
  /\ exists db',
       PostDeleteView sample_now 3 sample_db (bob_posts [])
       = (db', redirect blog_index)
       /\ map Post.pk (posts db') = [1; 2; 4]
       /\ post_detail db' sample_later as_bob 3 = Http404.
Proof.
  assert (NoDup (map Post.pk (posts sample_db))) as Hnd by distinct_keys.
  assert (In hidden_post (posts sample_db)) as Hin by (simpl; auto).
  split; [exact Hnd|]. split; [exact Hin|]. split; [reflexivity|].
  destruct (@deleted_post_is_gone sample_now sample_db (bob_posts [])
                                  hidden_post Hnd Hin eq_refl eq_refl)
    as [db' [Hview [_ [_ [_ [_ Hgone]]]]]].
  exists db'. split; [exact Hview|]. split; [|exact (Hgone sample_later as_bob)].
  vm_compute in Hview. injection Hview as <-. reflexivity.
Defined.

Lemma edited_post_is_shown_to_author_witness :
  NoDup (map Post.pk (posts sample_db))
  /\ In hidden_post (posts sample_db)
  /\ user_is (Authenticated bob) (Post.author_id hidden_post) = true
  /\ PostForm_clean false false sample_clean_content
       (PostForm_init sample_db sample_now (Some no_category)
                      (Some hidden_post))
       no_category hidden_post = inr retitled_post
  /\ exists db',
       PostUpdateView false false sample_clean_content sample_now 3
                      sample_db (bob_posts no_category)
       = (db', redirect (blog_post_detail 3))
       /\ In retitled_post (posts db')
       /\ post_detail db' sample_later (bob_posts no_category) 3
          = render "blog/detail.html"
              (DetailContext.mk retitled_post []
                                (Some CommentForm_unbound) sample_later).
Proof.
  assert (NoDup (map Post.pk (posts sample_db))) as Hnd by distinct_keys.
  assert (In hidden_post (posts sample_db)) as Hin by (simpl; auto).
  split; [exact Hnd|]. split; [exact Hin|]. split; [reflexivity|].
  split; [reflexivity|].
  destruct (@edited_post_is_shown_to_author
              false false sample_clean_content sample_now sample_db
              (bob_posts no_category) hidden_post retitled_post
              Hnd Hin eq_refl eq_refl eq_refl)
    as [db' [Hview [Hsaved Hshown]]].
  exists db'. split; [exact Hview|]. split; [exact Hsaved|].
  exact (Hshown sample_later).
Defined.

Lemma writes_keep_keys_unique_witness :
  keys_unique sample_db
  /\ keys_unique (fst (add_comment 1 sample_db
                         (bob_posts [("text", "hello")])))
  /\ keys_unique (fst (PostDeleteView sample_now 3 sample_db (bob_posts []))).
Proof.
  assert (keys_unique sample_db) as Hok.
  { unfold keys_unique. repeat split; distinct_keys. }
  split; [exact Hok|].
  pose proof (@writes_keep_keys_unique
                false false true sample_clean_content sample_clean_profile
                sample_UserCreationForm_clean sample_validate_email
                sample_now sample_db (bob_posts [("text", "hello")]) 1 1
                fresh_registration Hok) as Hadd.
  pose proof (@writes_keep_keys_unique
                false false true sample_clean_content sample_clean_profile
                sample_UserCreationForm_clean sample_validate_email
                sample_now sample_db (bob_posts []) 3 1
                fresh_registration Hok) as Hdelete.
  split; [exact (proj1 Hadd)|].
  exact (proj1 (proj2 (proj2 (proj2 (proj2 (proj2 Hdelete)))))).
Defined.

Lemma registration_keeps_emails_distinct_witness :
  NoDup (map User.email (users sample_db))
  /\ NoDup (map User.email
               (users (fst (CustomUserCreationForm_save
                              sample_UserCreationForm_clean
                              sample_validate_email sample_db
                              fresh_registration)))).
Proof.
  assert (NoDup (map User.email (users sample_db))) as Hnd by distinct_keys.
  split; [exact Hnd|].
  exact (@registration_keeps_emails_distinct
           sample_UserCreationForm_clean sample_validate_email sample_db
           fresh_registration Hnd).
Defined.

Lemma registered_user_has_a_profile_witness :
  NoDup (map User.username (users sample_db))
  /\ ~ In (User.username carol) (map User.username (users sample_db))
  /\ exists db',
       CustomUserCreationForm_save sample_UserCreationForm_clean
         sample_validate_email sample_db fresh_registration
       = (db', Return carol)
       /\ exists page_obj,
            ProfileView db' sample_now as_anonymous "carol"
            = render "blog/profile.html" (ProfileContext.mk carol page_obj).
Proof.
  assert (NoDup (map User.username (users sample_db))) as Hnd by distinct_keys.
  assert (~ In (User.username carol) (map User.username (users sample_db)))
    as Hfresh by (simpl; intuition discriminate).
  split; [exact Hnd|]. split; [exact Hfresh|].
  eexists. split; [reflexivity|].
  exact (@registered_user_has_a_profile
           sample_UserCreationForm_clean sample_validate_email sample_db _
           fresh_registration carol Hnd eq_refl Hfresh sample_now
           as_anonymous).
Defined.


Lemma deleted_comment_lowers_the_count_witness :
  NoDup (map Comment.pk (comments sample_db))
  /\ In first_comment (comments sample_db)
  /\ user_is (Authenticated bob) (Comment.author_id first_comment) = true
  /\ comment_count sample_db shown_post = 1
  /\ exists db',
       CommentDeleteView 4 1 sample_db (bob_posts [])
       = (db', redirect (blog_post_detail 4))
       /\ posts db' = posts sample_db
       /\ comment_count db' shown_post = 0.
Proof.
  assert (NoDup (map Comment.pk (comments sample_db))) as Hnd
    by distinct_keys.
  assert (In first_comment (comments sample_db)) as Hin by (simpl; auto).
  split; [exact Hnd|]. split; [exact Hin|]. split; [reflexivity|].
  split; [reflexivity|].
  destruct (@deleted_comment_lowers_the_count
              sample_db (bob_posts []) first_comment 4 Hnd Hin eq_refl
              eq_refl)
    as [db' [Hview [Hposts [_ [_ Hcount]]]]].
  exists db'. split; [exact Hview|]. split; [exact Hposts|].
  specialize (Hcount shown_post).
  replace (comment_count sample_db shown_post) with 1 in Hcount
    by reflexivity.
  replace (Comment.post_id first_comment =? Post.pk shown_post) with true
    in Hcount by reflexivity.
  lia.
Defined.

Lemma comment_text_never_blank_witness :
  (forall c, In c (comments sample_db) -> Comment.text c <> "")
  /\ (forall c,
        In c (comments (fst (add_comment 1 sample_db
                               (bob_posts [("text", "hello")])))) ->
        Comment.text c <> "")
  /\ fst (add_comment 1 sample_db (bob_posts [("text", "  ")])) = sample_db.
Proof.
  assert (forall c, In c (comments sample_db) -> Comment.text c <> "")
    as Hinv.
  { intros c [<-|[]]. discriminate. }
  split; [exact Hinv|]. split; [|reflexivity].
  exact (proj1 (@comment_text_never_blank
                  1 1 sample_db (bob_posts [("text", "hello")]) Hinv)).
Defined.

Lemma created_post_belongs_to_requester_witness :
  PostCreateView false false sample_clean_content true sample_now sample_db
                 (bob_posts no_category)
  = (insert_post sample_db new_post, redirect (blog_profile "bob"))
  /\ (insert_post sample_db new_post = sample_db
      \/ exists u post,
           HttpRequest.user (bob_posts no_category) = Authenticated u
           /\ HttpRequest.method (bob_posts no_category) = POST
           /\ insert_post sample_db new_post = insert_post sample_db post
           /\ Post.author_id post = User.pk u
           /\ Post.is_published post = true
           /\ ~ In (Post.pk post) (map Post.pk (posts sample_db))
           /\ @redirect PostCreateContext.t (blog_profile "bob")
              = redirect (blog_profile (User.username u))
           /\ (NoDup (map User.username (users sample_db)) ->
               In u (users sample_db) ->
               forall now',
               exists page_obj,
                 ProfileView (insert_post sample_db new_post) now'
                             (bob_posts no_category) (User.username u)
                 = render "blog/profile.html" (ProfileContext.mk u page_obj)
                 /\ In post (map fst (listing page_obj)))).
Proof.
  split; [reflexivity|].
  exact (@created_post_belongs_to_requester
           false false true sample_clean_content sample_now sample_db
           (insert_post sample_db new_post) (bob_posts no_category)
           (redirect (blog_profile "bob")) eq_refl).
Defined.

Lemma profile_edit_changes_own_row_only_witness :
  ProfileUpdateView sample_clean_profile sample_db
                    (bob_posts [("username", "robert")])
  = (save_user sample_db renamed_bob, redirect (blog_profile "robert"))
  /\ users (save_user sample_db renamed_bob) = [alice; renamed_bob]
  /\ posts (save_user sample_db renamed_bob) = posts sample_db
  /\ (forall q, In q (users sample_db) ->
                user_is (Authenticated bob) (User.pk q) = false ->
                In q (users (save_user sample_db renamed_bob))).
Proof.
  split; [reflexivity|]. split; [reflexivity|].
  pose proof (@profile_edit_changes_own_row_only
                sample_clean_profile sample_db
                (save_user sample_db renamed_bob)
                (bob_posts [("username", "robert")])
                (redirect (blog_profile "robert")) eq_refl)
    as (Hposts & _ & _ & _ & _ & Hothers & _).
  split; [exact Hposts|exact Hothers].
Defined.

(** ** Limits of the registration form *)

Section RegistrationLimits.
Variable UserCreationForm_clean :
  list User.t -> RegistrationData.t -> FormErrors + (string * string).
Variable validate_email : string -> bool.

Let save := CustomUserCreationForm_save UserCreationForm_clean validate_email.



End RegistrationLimits.


(** ** Comments refer to stored posts *)

Section CommentsHavePosts.
Variable category_required location_required default_is_published : bool.
Variable clean_content : QueryDict -> FormErrors + PostContent.t.
Variable clean_profile :
  list User.t -> User.t -> QueryDict
  -> FormErrors + (string * string * string * string).
Variable now : datetime.

(** X20. If every stored comment is a comment on a stored post, this is
    still so after adding, editing or deleting a comment, after creating or
    editing a post and after editing the profile, for any request: a comment
    is only ever added to a post that exists, and no such write removes a
    post or moves a comment. *)
Theorem comments_keep_their_posts (db : DB) (request : HttpRequest.t)
  (post_id comment_id : Z) :
  comments_have_posts db ->
  comments_have_posts (fst (add_comment post_id db request))
  /\ comments_have_posts
       (fst (CommentUpdateView post_id comment_id db request))
  /\ comments_have_posts
       (fst (CommentDeleteView post_id comment_id db request))
  /\ comments_have_posts
       (fst (PostCreateView category_required location_required
                            clean_content default_is_published now
                            db request))
  /\ comments_have_posts
       (fst (PostUpdateView category_required location_required
                            clean_content now post_id db request))
  /\ comments_have_posts (fst (ProfileUpdateView clean_profile db request)).
Proof.
  intros Hinv. repeat match goal with |- _ /\ _ => split end.
  - unfold add_comment, login_required, get_object_or_404.
    destruct (is_authenticated _); [|exact Hinv].
    destruct (get _) as [post| |] eqn:Hget; try exact Hinv.
    destruct (HttpRequest.method request); [exact Hinv|].
    destruct (HttpRequest.user request) as [|u]; [exact Hinv|].
    destruct (CommentForm_clean _) as [errors|text]; [exact Hinv|].
    intros c Hc. cbn [fst insert_comment comments posts] in *.
    apply in_app_or in Hc as [Hc|[<-|[]]]; [now apply Hinv|].
    cbn [Comment.post_id]. apply in_map. apply get_Got in Hget.
    assert (In post [post]) as H by now left.
    rewrite <- Hget in H. now apply filter_In in H.
  - pose proof (CommentUpdateView_frame post_id comment_id db request)
      as (_ & _ & _ & Hposts & _ & Hmoved & _).
    cbv zeta in Hposts, Hmoved.
    intros c Hc. rewrite Hposts.
    apply (in_map Comment.post_id) in Hc. rewrite Hmoved in Hc.
    apply in_map_iff in Hc as [c0 [<- Hc0]]. now apply Hinv.
  - unfold CommentDeleteView, LoginRequiredMixin, AuthorRequiredMixin,
           UserPassesTestMixin, test_func, CommentDeleteView_handle,
           get_comment, get_object_or_404.
    destruct (is_authenticated _); cbn [negb]; [|exact Hinv].
    destruct (get _) as [object| |]; try exact Hinv.
    destruct (user_is _ _); [|exact Hinv].
    destruct (HttpRequest.method request); [exact Hinv|].
    intros c Hc. cbn [fst delete_comment comments posts] in *.
    apply filter_In in Hc as [Hc _]. now apply Hinv.
  - unfold PostCreateView.
    destruct (HttpRequest.user request) as [|u]; [exact Hinv|].
    destruct (HttpRequest.method request); [exact Hinv|].
    destruct (PostForm_clean _ _ _ _ _ _) as [errors|post]; [exact Hinv|].
    intros c Hc. cbn [fst insert_post comments posts] in *.
    rewrite map_app. apply in_or_app. left. now apply Hinv.
  - pose proof (PostUpdateView_frame category_required location_required
                  clean_content now post_id db request)
      as (_ & _ & _ & Hcomments & Hkeys & _).
    cbv zeta in Hcomments, Hkeys.
    intros c Hc. rewrite Hkeys. rewrite Hcomments in Hc. now apply Hinv.
  - unfold ProfileUpdateView.
    destruct (HttpRequest.user request) as [|u]; [exact Hinv|].
    destruct (HttpRequest.method request); [exact Hinv|].
    destruct (clean_profile _ _ _) as [errors|[[[first last] name] mail]];
      exact Hinv.
Qed.

End CommentsHavePosts.

Lemma comments_keep_their_posts_witness :
  comments_have_posts sample_db
  /\ comments_have_posts
       (fst (add_comment 2 sample_db (bob_posts [("text", "hello")])))
  /\ add_comment 99 sample_db (bob_posts [("text", "hello")])
     = (sample_db, Http404).
Proof.
  assert (comments_have_posts sample_db) as Hinv.
  { intros c [<-|[]]. simpl. auto. }
  split; [exact Hinv|]. split; [|reflexivity].
  exact (proj1 (@comments_keep_their_posts
                  false false true sample_clean_content sample_clean_profile
                  sample_now sample_db (bob_posts [("text", "hello")]) 2 1
                  Hinv)).
Defined.
